(** * Classroom scheduler (simple_scheduler.py): model and verified properties

    The scheduler is a greedy first-fit allocator.  For every course, in
    input order, it walks the fixed catalog of time slots and, for every
    slot that is free for the lecturer and for the course level, takes the
    first classroom (in ascending capacity) that is large enough and free.

    The Python program is embedded as follows.
    - JSON integers are [Z]; JSON strings are [string].
    - The dictionary [lecturers] is a [gmap string LecturerEntry]; the three
      usage dictionaries, whose values are always [True], are [gset]s of
      their tuple keys.
    - The local variables mutated by the loops of [schedule_courses] are
      gathered in the record [State], which is threaded through the loops.
    - A Python exception is the [Raises] outcome of the monad [outcome].
    - A dictionary whose set of keys varies (the returned record, an entry
      of [unscheduled]) is a record whose optional keys have an [option]
      type: [None] is an absent key. *)

From Stdlib Require Import ZArith QArith Qround Lia Ascii String.
From stdpp Require Import base gmap strings list fin_maps pretty sorting.

Open Scope string_scope.
Open Scope list_scope.
Open Scope Z_scope.

(** ** Hardcoded data *)

Definition TIME_SLOTS : list (string * string) :=
  [ ("Monday", "8 AM - 10 AM");
    ("Monday", "10 AM - 12 PM");
    ("Monday", "12 PM - 2 PM");
    ("Monday", "2 PM - 4 PM");
    ("Tuesday", "8 AM - 10 AM");
    ("Tuesday", "10 AM - 12 PM");
    ("Tuesday", "12 PM - 2 PM");
    ("Tuesday", "2 PM - 4 PM");
    ("Wednesday", "8 AM - 10 AM");
    ("Wednesday", "10 AM - 12 PM");
    ("Thursday", "8 AM - 10 AM");
    ("Thursday", "10 AM - 12 PM");
    ("Thursday", "12 PM - 2 PM");
    ("Thursday", "2 PM - 4 PM");
    ("Friday", "8 AM - 10 AM");
    ("Friday", "10 AM - 12 PM");
    ("Friday", "12 PM - 2 PM");
    ("Friday", "2 PM - 4 PM") ].

Record Classroom := mkClassroom {
  room_name : string;
  room_capacity : Z
}.

Definition CLASSROOMS : list Classroom :=
  [ mkClassroom "Software Lab" 90;
    mkClassroom "Hardware Lab" 80;
    mkClassroom "CS Lecture Hall 1" 200;
    mkClassroom "CS Lecture Hall 2" 150;
    mkClassroom "Tutorial Room A" 50;
    mkClassroom "Tutorial Room B" 50;
    mkClassroom "Seminar Room" 100 ].

(** [sorted(CLASSROOMS, key=lambda r: r['capacity'])]: Python's sort is
    stable, so rooms of equal capacity keep their catalog order.  The head
    of the list precedes every element of the tail in the original order,
    hence it is inserted before the first element that is not smaller. *)
Fixpoint insert_by_capacity (r : Classroom) (l : list Classroom) : list Classroom :=
  match l with
  | [] => [r]
  | r' :: l' =>
      if room_capacity r <=? room_capacity r' then r :: r' :: l'
      else r' :: insert_by_capacity r l'
  end.

Fixpoint sorted_by_capacity (l : list Classroom) : list Classroom :=
  match l with
  | [] => []
  | r :: l' => insert_by_capacity r (sorted_by_capacity l')
  end.

(** ** Input data

    A course and a lecturer carry the fields of the input format, which
    are the fields that the program reads. *)

Record Course := mkCourse {
  course_code : string;
  title : string;
  level : Z;
  lecturer : string;
  hours_per_week : Z;
  enrollment : Z
}.

Record Lecturer := mkLecturer {
  name : string;
  lec_hours_per_week : Z
}.

(** The object read from [user_input.json].  The program reads both keys
    with [data.get(key, [])], so an absent key is the empty list. *)
Record UserData := mkUserData {
  courses : list Course;
  lecturers_data : list Lecturer
}.

(** [load_user_data]: the file system is the argument; [None] is a missing
    file ([FileNotFoundError] is caught), and a file that is present holds
    a well-formed object. *)
Definition load_user_data (file : option UserData) : UserData :=
  match file with
  | Some data => data
  | None => mkUserData [] []
  end.

(** ** Output data *)

Record ScheduledSession := mkSession {
  s_course : string;
  s_title : string;
  s_level : Z;
  s_lecturer : string;
  s_room : string;
  s_day : string;
  s_time : string;
  s_capacity : Z;
  s_enrollment : Z
}.

(** An entry of [unscheduled] is [{**course, ...}]: the course fields, a
    [reason], and, only for a shortfall, the two session counts. *)
Record UnscheduledRecord := mkUnscheduled {
  u_course : Course;
  u_sessions_assigned : option Z;
  u_sessions_needed : option Z;
  u_reason : string
}.

(** The [stats] dictionary.  [success_rate] is kept as the exact rational
    [scheduled_courses / total_courses * 100]; the program computes it in
    double precision and rounds it to one decimal, which is not modelled. *)
Record Statistics := mkStatistics {
  total_courses : Z;
  fully_scheduled : Z;
  partially_scheduled : Z;
  stat_unscheduled : Z;
  success_rate : Q;
  total_sessions : Z
}.

(** The dictionary returned by [schedule_courses].  The keys [schedule] and
    [unscheduled] are always present; the other three depend on the path. *)
Record ScheduleResult := mkResult {
  r_schedule : list ScheduledSession;
  r_unscheduled : list UnscheduledRecord;
  r_message : option string;
  r_statistics : option Statistics;
  r_lecturer_workload : option (gmap string Z)
}.

(** ** Exceptions *)

Inductive exception := OverflowError | KeyError.

Inductive outcome (A : Type) :=
| Returns (a : A)
| Raises (e : exception).
Arguments Returns {A} a.
Arguments Raises {A} e.

#[global] Instance outcome_ret : MRet outcome := fun A a => Returns a.
#[global] Instance outcome_bind : MBind outcome := fun A B k m =>
  match m with
  | Returns a => k a
  | Raises e => Raises e
  end.

(** ** The scheduling algorithm *)

Definition calculate_sessions_needed (hours_per_week : Z) : Z :=
  (hours_per_week + 1) / 2.

Record LecturerEntry := mkEntry {
  hours_available : Z;
  hours_used : Z
}.

Record State := mkState {
  lecturers : gmap string LecturerEntry;
  room_usage : gset (string * string * string);
  lecturer_usage : gset (string * string * string);
  level_usage : gset (Z * string * string);
  schedule : list ScheduledSession;
  unscheduled : list UnscheduledRecord
}.

(** "Build lecturer lookup": a later lecturer of the same name replaces an
    earlier one. *)
Definition build_lecturers (l : list Lecturer) : gmap string LecturerEntry :=
  foldl (fun m lec => <[name lec := mkEntry (lec_hours_per_week lec) 0]> m) ∅ l.

Definition initial_state (data : UserData) : State :=
  mkState (build_lecturers (lecturers_data data)) ∅ ∅ ∅ [] [].

(** [course['enrollment'] * 0.8] converts the integer to a double first,
    and Python raises [OverflowError] when the integer rounds (to nearest,
    ties to even) beyond the largest double [2^1024 - 2^971]. *)
Definition float_overflow (n : Z) : bool :=
  2 ^ 1024 - 2 ^ 970 <=? Z.abs n.


(** [room['capacity'] < course['enrollment'] * 0.8].  For an integer
    enrollment that converts to a double and a capacity of the catalog (at
    most 200), the comparison of the integer capacity with the rounded
    product agrees with the exact comparison of [capacity] with
    [4/5 * enrollment]: the double nearest to 0.8 is [0.8 * (1 + 2^-54)],
    the product is rounded back to the integer [4k] when
    [enrollment = 5k], and is otherwise at least 0.2 away from every
    integer.  The test is therefore written on integers. *)
Definition room_too_small (capacity enrollment : Z) : outcome bool :=
  if float_overflow enrollment then Raises OverflowError
  else Returns (5 * capacity <? 4 * enrollment).

Definition lecturer_not_found (lecturer_name : string) : string :=
  "Lecturer " +:+ lecturer_name +:+ " not found in system".

Definition could_only_schedule (sessions_assigned sessions_needed : Z) : string :=
  "Could only schedule " +:+ pretty sessions_assigned +:+ "/" +:+
  pretty sessions_needed +:+ " sessions".

(** "Assign the class!": the entry appended to [schedule]. *)
Definition new_session (course : Course) (day time : string) (room : Classroom)
    : ScheduledSession :=
  mkSession (course_code course) (title course) (level course)
    (lecturer course) (room_name room) day time
    (room_capacity room) (enrollment course).

(** "Mark as used": the state after the body of the room loop has accepted
    [room], where [e] is the ledger entry of the lecturer. *)
Definition assigned_state (course : Course) (day time : string)
    (room : Classroom) (e : LecturerEntry) (st : State) : State :=
  mkState
    (<[lecturer course := mkEntry (hours_available e) (hours_used e + 2)]>
       (lecturers st))
    ({[ (room_name room, day, time) ]} ∪ room_usage st)
    ({[ (lecturer course, day, time) ]} ∪ lecturer_usage st)
    ({[ (level course, day, time) ]} ∪ level_usage st)
    (schedule st ++ [new_session course day time room])
    (unscheduled st).

(** [lecturers[lecturer_name]] raises [KeyError] on an absent key. *)
Definition assign (course : Course) (day time : string) (room : Classroom)
    (st : State) : outcome State :=
  match lecturers st !! lecturer course with
  | None => Raises KeyError
  | Some e => mret (assigned_state course day time room e st)
  end.

(** The loop over the sorted classrooms for one slot.  It returns the state
    and [sessions_assigned]; the flag [room_found] of the program only
    guards a [continue] at the end of the slot loop body and is left out. *)
Fixpoint try_rooms (course : Course) (day time : string)
    (rooms : list Classroom) (st : State) (sessions_assigned : Z)
    : outcome (State * Z) :=
  match rooms with
  | [] => mret (st, sessions_assigned)
  | room :: rest =>
      small ← room_too_small (room_capacity room) (enrollment course);
      if (small : bool) then try_rooms course day time rest st sessions_assigned
      else if decide ((room_name room, day, time) ∈ room_usage st)
      then try_rooms course day time rest st sessions_assigned
      else
        st' ← assign course day time room st;
        mret (st', sessions_assigned + 1)
  end.

(** The loop over the time slots for one course. *)
Fixpoint scan_slots (course : Course) (sessions_needed : Z)
    (slots : list (string * string)) (st : State) (sessions_assigned : Z)
    : outcome (State * Z) :=
  match slots with
  | [] => mret (st, sessions_assigned)
  | (day, time) :: rest =>
      if sessions_assigned >=? sessions_needed then mret (st, sessions_assigned)
      else
        match lecturers st !! lecturer course with
        | None => Raises KeyError
        | Some e =>
            if hours_used e >=? hours_available e
            then scan_slots course sessions_needed rest st sessions_assigned
            else if decide ((lecturer course, day, time) ∈ lecturer_usage st)
            then scan_slots course sessions_needed rest st sessions_assigned
            else if decide ((level course, day, time) ∈ level_usage st)
            then scan_slots course sessions_needed rest st sessions_assigned
            else
              '(st', sessions_assigned') ←
                try_rooms course day time (sorted_by_capacity CLASSROOMS)
                  st sessions_assigned;
              scan_slots course sessions_needed rest st' sessions_assigned'
        end
  end.

Definition add_unscheduled (st : State) (u : UnscheduledRecord) : State :=
  mkState (lecturers st) (room_usage st) (lecturer_usage st) (level_usage st)
    (schedule st) (unscheduled st ++ [u]).

(** The body of "Process each course".  The local flag [assigned] of the
    program is written and never read; it is left out. *)
Definition process_course (st : State) (course : Course) : outcome State :=
  let sessions_needed := calculate_sessions_needed (hours_per_week course) in
  let lecturer_name := lecturer course in
  match lecturers st !! lecturer_name with
  | None =>
      mret (add_unscheduled st
              (mkUnscheduled course None None (lecturer_not_found lecturer_name)))
  | Some _ =>
      '(st', sessions_assigned) ←
        scan_slots course sessions_needed TIME_SLOTS st 0;
      if sessions_assigned <? sessions_needed
      then mret (add_unscheduled st'
                   (mkUnscheduled course (Some sessions_assigned)
                      (Some sessions_needed)
                      (could_only_schedule sessions_assigned sessions_needed)))
      else mret st'
  end.

Fixpoint process_courses (cs : list Course) (st : State) : outcome State :=
  match cs with
  | [] => mret st
  | course :: rest => st' ← process_course st course; process_courses rest st'
  end.

(** [u.get('sessions_assigned', 0)] *)
Definition get_sessions_assigned (u : UnscheduledRecord) : Z :=
  default 0 (u_sessions_assigned u).

Definition len {A : Type} (l : list A) : Z := Z.of_nat (length l).

Definition scheduled_courses (cs : list Course) (sched : list ScheduledSession) : Z :=
  len (filter (fun c => course_code c ∈ s_course <$> sched) cs).

Definition calculate_statistics (cs : list Course) (st : State) : Statistics :=
  let total := len cs in
  let scheduled := scheduled_courses cs (schedule st) in
  mkStatistics
    total
    (scheduled - len (unscheduled st))
    (len (filter (fun u => 0 < get_sessions_assigned u) (unscheduled st)))
    (len (filter (fun u => get_sessions_assigned u = 0) (unscheduled st)))
    (if 0 <? total then (inject_Z scheduled / inject_Z total * 100)%Q else 0%Q)
    (len (schedule st)).

Definition no_courses_message : string :=
  "No courses to schedule. Please add courses first.".

Definition schedule_courses (file : option UserData) : outcome ScheduleResult :=
  let data := load_user_data file in
  match courses data with
  | [] => mret (mkResult [] [] (Some no_courses_message) None None)
  | _ :: _ =>
      st ← process_courses (courses data) (initial_state data);
      mret (mkResult (schedule st) (unscheduled st) None
              (Some (calculate_statistics (courses data) st))
              (Some (hours_used <$> lecturers st)))
  end.

(** ** The run as a transition system

    Every change of the state made by [schedule_courses] is one of three
    transitions: a session is assigned (all guards of the loops have
    passed), a course with an unknown lecturer is rejected, or a shortfall
    is recorded.  The transitions are labelled by a course of the list
    [cs] being processed. *)

Record can_assign (course : Course) (day time : string) (room : Classroom)
    (e : LecturerEntry) (st : State) : Prop := {
  ca_entry : lecturers st !! lecturer course = Some e;
  ca_hours : hours_used e < hours_available e;
  ca_lecturer_free : (lecturer course, day, time) ∉ lecturer_usage st;
  ca_level_free : (level course, day, time) ∉ level_usage st;
  ca_room_free : (room_name room, day, time) ∉ room_usage st;
  ca_room_fits : 4 * enrollment course <= 5 * room_capacity room;
  ca_room_catalog : room ∈ CLASSROOMS;
  ca_slot_catalog : (day, time) ∈ TIME_SLOTS
}.

Definition unknown_record (course : Course) : UnscheduledRecord :=
  mkUnscheduled course None None (lecturer_not_found (lecturer course)).

Definition shortfall_record (course : Course) (sessions_assigned : Z)
    : UnscheduledRecord :=
  let sessions_needed := calculate_sessions_needed (hours_per_week course) in
  mkUnscheduled course (Some sessions_assigned) (Some sessions_needed)
    (could_only_schedule sessions_assigned sessions_needed).

Inductive step (cs : list Course) : State -> State -> Prop :=
| step_assign course day time room e st :
    course ∈ cs ->
    can_assign course day time room e st ->
    step cs st (assigned_state course day time room e st)
| step_unknown course st :
    course ∈ cs ->
    lecturers st !! lecturer course = None ->
    step cs st (add_unscheduled st (unknown_record course))
| step_shortfall course sessions_assigned st :
    course ∈ cs ->
    is_Some (lecturers st !! lecturer course) ->
    0 <= sessions_assigned < calculate_sessions_needed (hours_per_week course) ->
    step cs st (add_unscheduled st (shortfall_record course sessions_assigned)).

(** Facts about the sessions that one course adds: they are appended to
    [schedule], and nothing else of the output moves. *)
Record extends (course : Course) (st st' : State) (k : Z) : Prop := {
  ext_schedule : exists new,
    schedule st' = schedule st ++ new /\ len new = k /\
    Forall (fun s => s_course s = course_code course /\
                     s_lecturer s = lecturer course) new;
  ext_unscheduled : unscheduled st' = unscheduled st;
  ext_lecturers : forall n, lecturers st' !! n = None <-> lecturers st !! n = None
}.

(** ** Invariants of the run *)

Definition room_key (s : ScheduledSession) : string * string * string :=
  (s_room s, s_day s, s_time s).
Definition lecturer_key (s : ScheduledSession) : string * string * string :=
  (s_lecturer s, s_day s, s_time s).
Definition level_key (s : ScheduledSession) : Z * string * string :=
  (s_level s, s_day s, s_time s).

(** The usage sets cover the schedule, which never holds a key twice. *)
Record consistent (st : State) : Prop := {
  cons_room_marked : forall s, s ∈ schedule st -> room_key s ∈ room_usage st;
  cons_lecturer_marked :
    forall s, s ∈ schedule st -> lecturer_key s ∈ lecturer_usage st;
  cons_level_marked :
    forall s, s ∈ schedule st -> level_key s ∈ level_usage st;
  cons_room_nodup : NoDup (room_key <$> schedule st);
  cons_lecturer_nodup : NoDup (lecturer_key <$> schedule st);
  cons_level_nodup : NoDup (level_key <$> schedule st);
  cons_fits :
    forall s, s ∈ schedule st -> 4 * s_enrollment s <= 5 * s_capacity s;
  cons_known :
    forall s, s ∈ schedule st -> is_Some (lecturers st !! s_lecturer s)
}.

(** The ledger: every session costs its lecturer two hours, budgets never
    change, names are never added, and a session is only started while
    some of the budget is left. *)
Definition sessions_of (n : string) (sched : list ScheduledSession) : Z :=
  len (filter (fun s => s_lecturer s = n) sched).

Definition ledger_ok (budget : gmap string LecturerEntry) (st : State) : Prop :=
  forall n,
    match lecturers st !! n, budget !! n with
    | Some e, Some e0 =>
        hours_available e = hours_available e0 /\
        hours_used e = 2 * sessions_of n (schedule st) /\
        (hours_used e = 0 \/ hours_used e < hours_available e + 2)
    | None, None => True
    | _, _ => False
    end.

(** The entries of [unscheduled]: one of the two shapes that
    [process_course] builds, for a course of the input. *)
Definition record_ok (cs : list Course) (budget : gmap string LecturerEntry)
    (u : UnscheduledRecord) : Prop :=
  u_course u ∈ cs /\
  ((budget !! lecturer (u_course u) = None /\ u = unknown_record (u_course u)) \/
   (is_Some (budget !! lecturer (u_course u)) /\
    exists a, 0 <= a < calculate_sessions_needed (hours_per_week (u_course u)) /\
              u = shortfall_record (u_course u) a)).

(** ** The two ways [schedule_courses] returns *)

Definition lecturer_budget (file : option UserData) : gmap string LecturerEntry :=
  build_lecturers (lecturers_data (load_user_data file)).

Definition full_result (cs : list Course) (st : State) : ScheduleResult :=
  mkResult (schedule st) (unscheduled st) None
    (Some (calculate_statistics cs st)) (Some (hours_used <$> lecturers st)).

Definition empty_result : ScheduleResult :=
  mkResult [] [] (Some no_courses_message) None None.

(** ** Concrete inputs *)

(** Scenario A of the specification. *)
Definition scenario_A : UserData :=
  mkUserData [mkCourse "CSC101" "Programming I" 100 "Dr. A" 4 40]
             [mkLecturer "Dr. A" 10].

(** Scenario B of the specification: the lecturer of the course is unknown. *)
Definition scenario_B : UserData :=
  mkUserData [mkCourse "CSC404" "Compilers" 400 "Dr. Ghost" 4 40] [].

(** A lecturer with an odd budget and one with a negative budget. *)
Definition odd_budget : UserData :=
  mkUserData [mkCourse "CSC201" "Data Structures" 200 "Dr. A" 4 40]
             [mkLecturer "Dr. A" 3; mkLecturer "Dr. B" (-2)].

(** A course of four hours whose lecturer has two hours: one session of
    the two needed is placed. *)
Definition short_budget : UserData :=
  mkUserData [mkCourse "CSC301" "Operating Systems" 300 "Dr. C" 4 60]
             [mkLecturer "Dr. C" 2].

(** An enrollment too large for a double, with a known lecturer. *)
Definition huge_enrollment : UserData :=
  mkUserData [mkCourse "CSC102" "Programming II" 100 "Dr. A" 2 (2 ^ 1024)]
             [mkLecturer "Dr. A" 10].

(** The same enrollment for a course whose lecturer is unknown. *)
Definition huge_enrollment_unknown : UserData :=
  mkUserData [mkCourse "CSC405" "Robotics" 400 "Dr. Ghost" 2 (2 ^ 1024)]
             [mkLecturer "Dr. A" 10].

Definition result_of (o : outcome ScheduleResult) : ScheduleResult :=
  match o with
  | Returns r => r
  | Raises _ => mkResult [] [] None None None
  end.

(** ** Notions used by the further properties of the run *)

Definition capacity_le (r r' : Classroom) : Prop :=
  room_capacity r <= room_capacity r'.

(** The room loop passes over [room]: it is too small for the course, or
    in use at the slot. *)
Definition room_unavailable (course : Course) (day time : string) (st : State)
    (room : Classroom) : Prop :=
  5 * room_capacity room < 4 * enrollment course \/
  (room_name room, day, time) ∈ room_usage st.

(** The slot loop cannot place the course at [slot]: the budget of the
    lecturer is used up, the lecturer or the level is busy, or no room of
    the catalog is available. *)
Definition slot_blocked (course : Course) (st : State) (slot : string * string)
    : Prop :=
  (exists e, lecturers st !! lecturer course = Some e /\
             hours_available e <= hours_used e) \/
  (lecturer course, slot.1, slot.2) ∈ lecturer_usage st \/
  (level course, slot.1, slot.2) ∈ level_usage st \/
  (forall room, room ∈ CLASSROOMS ->
                room_unavailable course slot.1 slot.2 st room).

(** A slot and a room taken for a course, and the session made of them. *)
Definition session_of_pick (course : Course)
    (pick : string * string * Classroom) : ScheduledSession :=
  new_session course pick.1.1 pick.1.2 pick.2.

(** The records that one course appends to [unscheduled], from whether its
    lecturer is known and from the number of sessions it was assigned. *)
Definition course_records (known : bool) (course : Course) (assigned : Z)
    : list UnscheduledRecord :=
  if known then
    if assigned <? calculate_sessions_needed (hours_per_week course)
    then [shortfall_record course assigned] else []
  else [unknown_record course].

(** What one course adds to the output: the sessions made of [picks], at
    slots taken in catalog order and in rooms of the catalog, no more than
    needed, and the records of [course_records]. *)
Record course_effect (course : Course) (st st' : State)
    (picks : list (string * string * Classroom)) : Prop := {
  ce_schedule : schedule st' = schedule st ++ (session_of_pick course <$> picks);
  ce_slots : (fst <$> picks) `sublist_of` TIME_SLOTS;
  ce_rooms : Forall (fun pick => pick.2 ∈ CLASSROOMS) picks;
  ce_bound :
    len picks <= Z.max 0 (calculate_sessions_needed (hours_per_week course));
  ce_unscheduled :
    unscheduled st'
    = unscheduled st ++
      course_records (bool_decide (is_Some (lecturers st !! lecturer course)))
        course (len picks)
}.

(** The picks of one course are acceptable as its block of the schedule. *)
Definition course_block (course : Course)
    (picks : list (string * string * Classroom)) : Prop :=
  (fst <$> picks) `sublist_of` TIME_SLOTS /\
  Forall (fun pick => pick.2 ∈ CLASSROOMS) picks /\
  len picks <= Z.max 0 (calculate_sessions_needed (hours_per_week course)).

(** A course of zero hours whose lecturer is known. *)
Definition zero_hours : UserData :=
  mkUserData [mkCourse "CSC000" "Seminar" 100 "Dr. A" 0 40]
             [mkLecturer "Dr. A" 10].

(** The keys (room, day, time) that the catalogs allow. *)
Definition catalog_room_keys : list (string * string * string) :=
  room ← CLASSROOMS; slot ← TIME_SLOTS; [(room_name room, slot.1, slot.2)].

Definition slot_of (s : ScheduledSession) : string * string :=
  (s_day s, s_time s).

(** Two lecturers of one name: the later one is the one that counts. *)
Definition same_name_twice : UserData :=
  mkUserData [mkCourse "CSC101" "Programming I" 100 "Dr. A" 4 40]
             [mkLecturer "Dr. A" 0; mkLecturer "Dr. A" 2].

(** The state [st'] is reached from [st] while one course is processed:
    the usage sets have grown and the lecturer of the course has used no
    fewer hours of the same budget. *)
Record grown_for (course : Course) (st st' : State) : Prop := {
  gf_rooms : room_usage st ⊆ room_usage st';
  gf_lecturers : lecturer_usage st ⊆ lecturer_usage st';
  gf_levels : level_usage st ⊆ level_usage st';
  gf_hours : forall e, lecturers st !! lecturer course = Some e ->
    exists e', lecturers st' !! lecturer course = Some e' /\
               hours_available e' = hours_available e /\
               hours_used e <= hours_used e'
}.

(** ** The report of [print_schedule]

    The standard output is the list of the arguments of the [print]
    calls, in order.  A line made of literals, strings and integers is kept
    as its text.  Two kinds of line are kept as the values they show: a
    row of a level table, whose text pads and cuts its columns by character
    counts, and the success rate, whose text is the printing of a float. *)

Definition LEVELS : list Z := [100; 200; 300; 400].

Inductive output :=
| Line (text : string)
| RowLine (entry : ScheduledSession)
| SuccessRateLine (rate : Q).

Definition newline : string := String "010"%char EmptyString.

(** [s * n] *)
Fixpoint string_times (s : string) (n : nat) : string :=
  match n with
  | O => EmptyString
  | S n' => s +:+ string_times s n'
  end.

(** [f"{s:<width}"], used on literals. *)
Definition ljust (s : string) (width : nat) : string :=
  s +:+ string_times " " (width - String.length s).

(** [(x['day'], x['time']) < (y['day'], y['time'])]: tuples are compared
    at their first unequal components, strings by code points, which is
    the order of their UTF-8 bytes. *)
Definition slot_ltb (a b : string * string) : bool :=
  match String.compare a.1 b.1 with
  | Lt => true
  | Gt => false
  | Eq => String.ltb a.2 b.2
  end.

(** [sorted(level_schedule, key=lambda x: (x['day'], x['time']))], a
    stable sort: the head of the list goes before the first entry that is
    not smaller than it. *)
Fixpoint insert_by_slot (x : ScheduledSession) (l : list ScheduledSession)
    : list ScheduledSession :=
  match l with
  | [] => [x]
  | y :: l' =>
      if slot_ltb (slot_of y) (slot_of x) then y :: insert_by_slot x l'
      else x :: y :: l'
  end.

Fixpoint sorted_by_slot (l : list ScheduledSession) : list ScheduledSession :=
  match l with
  | [] => []
  | x :: l' => insert_by_slot x (sorted_by_slot l')
  end.

Definition banner : list output :=
  [ Line (newline +:+ string_times "=" 100);
    Line "COMPUTER SCIENCE DEPARTMENT - CLASSROOM SCHEDULE";
    Line "Levels: 100, 200, 300, 400";
    Line (string_times "=" 100 +:+ newline) ].

Definition table_header : string :=
  ljust "Course" 12 +:+ " " +:+ ljust "Title" 30 +:+ " " +:+
  ljust "Day" 10 +:+ " " +:+ ljust "Time" 15 +:+ " " +:+
  ljust "Room" 20 +:+ " " +:+ ljust "Lecturer" 20.

(** The body of "Group by level" for one level. *)
Definition level_section (sched : list ScheduledSession) (lv : Z) : list output :=
  let level_schedule := filter (fun s => s_level s = lv) sched in
  match level_schedule with
  | [] => []
  | _ :: _ =>
      [ Line (newline +:+ pretty lv +:+ " LEVEL COURSES");
        Line (string_times "-" 100);
        Line table_header;
        Line (string_times "-" 100) ] ++
      (RowLine <$> sorted_by_slot level_schedule)
  end.

Definition unscheduled_line (item : UnscheduledRecord) : output :=
  Line ("â€¢ " +:+ course_code (u_course item) +:+ ": " +:+
        title (u_course item) +:+ " - " +:+ u_reason item).

(** "Show unscheduled" *)
Definition unscheduled_section (items : list UnscheduledRecord) : list output :=
  match items with
  | [] => []
  | _ :: _ =>
      [ Line (newline +:+ string_times "=" 100);
        Line "UNSCHEDULED / PARTIALLY SCHEDULED COURSES";
        Line (string_times "-" 100) ] ++
      (unscheduled_line <$> items)
  end.

(** "Show statistics" *)
Definition statistics_section (stats : Statistics) : list output :=
  [ Line (newline +:+ string_times "=" 100);
    Line "STATISTICS";
    Line (string_times "-" 100);
    Line ("Total Courses: " +:+ pretty (total_courses stats));
    Line ("Fully Scheduled: " +:+ pretty (fully_scheduled stats));
    Line ("Partially Scheduled: " +:+ pretty (partially_scheduled stats));
    Line ("Unscheduled: " +:+ pretty (stat_unscheduled stats));
    SuccessRateLine (success_rate stats);
    Line ("Total Sessions: " +:+ pretty (total_sessions stats)) ].

(** The keys of a dictionary filled with [names] in order: a key keeps
    the position of its first insertion. *)
Fixpoint dict_keys (names : list string) : list string :=
  match names with
  | [] => []
  | n :: rest => n :: filter (fun m => m <> n) (dict_keys rest)
  end.

(** [result['lecturer_workload'].items()]: the workload is built from the
    dictionary [lecturers], whose keys are in the order in which
    "Build lecturer lookup" inserted them. *)
Definition workload_items (data : UserData) (workload : gmap string Z)
    : list (string * Z) :=
  omap (fun n => (fun hours => (n, hours)) <$> workload !! n)
    (dict_keys (name <$> lecturers_data data)).

(** "Lecturer workload" *)
Definition workload_section (items : list (string * Z)) : list output :=
  [ Line (newline +:+ string_times "=" 100);
    Line "LECTURER WORKLOAD";
    Line (string_times "-" 100) ] ++
  ((fun item => Line (item.1 +:+ ": " +:+ pretty item.2 +:+ " hours")) <$> items) ++
  [ Line (newline +:+ string_times "=" 100) ].

(** [print_schedule]: the report printed for the input file.  Reading an
    absent key of [result] raises [KeyError]. *)
Definition print_schedule (file : option UserData) : outcome (list output) :=
  result ← schedule_courses file;
  match r_schedule result with
  | [] =>
      mret (banner ++
            [Line (default "No schedule generated." (r_message result))])
  | _ :: _ =>
      match r_statistics result, r_lecturer_workload result with
      | Some stats, Some workload =>
          mret (banner ++
                (LEVELS ≫= level_section (r_schedule result)) ++
                unscheduled_section (r_unscheduled result) ++
                statistics_section stats ++
                workload_section (workload_items (load_user_data file) workload))
      | _, _ => Raises KeyError
      end
  end.

(** The entries shown by the rows of a report. *)
Definition rows (out : list output) : list ScheduledSession :=
  omap (fun o => match o with RowLine entry => Some entry | _ => None end) out.

(** Courses of an unknown lecturer only. *)
Definition nothing_scheduled : UserData :=
  mkUserData [mkCourse "CSC404" "Compilers" 400 "Dr. Ghost" 4 40;
              mkCourse "CSC405" "Robotics" 400 "Dr. Ghost" 2 30]
             [mkLecturer "Dr. A" 10].

(** A course of a level that is not in [LEVELS]. *)
Definition level_500 : UserData :=
  mkUserData [mkCourse "CSC501" "Research Methods" 500 "Dr. A" 2 20;
              mkCourse "CSC101" "Programming I" 100 "Dr. A" 2 40]
             [mkLecturer "Dr. A" 10].

(** [b] is not before [a] in the order of the rows. *)
Definition not_before (a b : ScheduledSession) : Prop :=
  slot_ltb (slot_of b) (slot_of a) = false.

Definition report_of (o : outcome (list output)) : list output :=
  match o with
  | Returns out => out
  | Raises _ => []
  end.

(** * Proofs *)

(** ** Reasoning about outcomes *)

Lemma bind_Returns {A B : Type} (m : outcome A) (k : A -> outcome B) (b : B) :
  m ≫= k = Returns b -> exists a, m = Returns a /\ k a = Returns b.
Proof.
  destruct m as [a|e]; simpl; intros H.
  - exists a. split; [reflexivity | exact H].
  - discriminate H.
Qed.

Lemma room_too_small_Returns capacity enrollment b :
  room_too_small capacity enrollment = Returns b ->
  float_overflow enrollment = false /\ b = (5 * capacity <? 4 * enrollment).
Proof.
  unfold room_too_small. destruct (float_overflow enrollment); [discriminate|].
  intros [= <-]. split; reflexivity.
Qed.

Lemma assign_Returns course day time room e st :
  lecturers st !! lecturer course = Some e ->
  assign course day time room st
  = Returns (assigned_state course day time room e st).
Proof. intros He. unfold assign. rewrite He. reflexivity. Qed.

Lemma elem_of_insert_by_capacity x r l :
  x ∈ insert_by_capacity r l <-> x = r \/ x ∈ l.
Proof.
  induction l as [|r' l IH]; simpl.
  - rewrite elem_of_cons, elem_of_nil. tauto.
  - destruct (room_capacity r <=? room_capacity r');
      rewrite !elem_of_cons, ?IH; tauto.
Qed.

Lemma elem_of_sorted_by_capacity x l : x ∈ sorted_by_capacity l <-> x ∈ l.
Proof.
  induction l as [|r l IH]; simpl; [done|].
  rewrite elem_of_insert_by_capacity, elem_of_cons, IH. tauto.
Qed.

(** What one pass over the rooms does for a slot that passed the lecturer
    and level guards: nothing, or exactly one assignment. *)
Lemma try_rooms_spec course day time e rooms st a st' a' :
  try_rooms course day time rooms st a = Returns (st', a') ->
  lecturers st !! lecturer course = Some e ->
  (st' = st /\ a' = a) \/
  (exists room, room ∈ rooms /\
     ((room_name room, day, time) ∉ room_usage st) /\
     4 * enrollment course <= 5 * room_capacity room /\
     st' = assigned_state course day time room e st /\ a' = a + 1).
Proof.
  intros Hrun He. induction rooms as [|room rest IH]; simpl in Hrun.
  - left. by injection Hrun as <- <-.
  - apply bind_Returns in Hrun as (small & Hsmall & Hrun).
    apply room_too_small_Returns in Hsmall as [_ ->].
    destruct (Z.ltb_spec (5 * room_capacity room) (4 * enrollment course)).
    { destruct (IH Hrun) as [?|(r & ? & ?)]; [by left|].
      right. exists r. split; [by right | done]. }
    destruct (decide ((room_name room, day, time) ∈ room_usage st)).
    { destruct (IH Hrun) as [?|(r & ? & ?)]; [by left|].
      right. exists r. split; [by right | done]. }
    rewrite (assign_Returns _ _ _ _ e) in Hrun by done. simpl in Hrun.
    injection Hrun as <- <-.
    right. exists room. split; [by left|]. repeat split; [done | lia].
Qed.

Lemma extends_refl course st : extends course st st 0.
Proof.
  split; [|done..]. exists []. by rewrite app_nil_r.
Qed.

Lemma extends_trans course st1 st2 st3 j k :
  extends course st1 st2 j -> extends course st2 st3 k ->
  extends course st1 st3 (j + k).
Proof.
  intros [(n1 & E1 & L1 & F1) U1 D1] [(n2 & E2 & L2 & F2) U2 D2]. split.
  - exists (n1 ++ n2). rewrite E2, E1, <- app_assoc. repeat split.
    + unfold len in *. rewrite length_app. lia.
    + by apply Forall_app.
  - congruence.
  - intros n. by rewrite D2.
Qed.

Lemma extends_assigned course day time room e st :
  lecturers st !! lecturer course = Some e ->
  extends course st (assigned_state course day time room e st) 1.
Proof.
  intros He. split; simpl.
  - exists [new_session course day time room]. repeat split.
    by repeat constructor.
  - done.
  - intros n. destruct (decide (lecturer course = n)) as [<-|Hne].
    + rewrite lookup_insert_eq, He. done.
    + by rewrite lookup_insert_ne.
Qed.

Section Run.
Variable cs : list Course.

Lemma scan_slots_spec course needed slots st a st' a' :
  course ∈ cs -> slots ⊆ TIME_SLOTS ->
  scan_slots course needed slots st a = Returns (st', a') ->
  rtc (step cs) st st' /\ extends course st st' (a' - a) /\ a <= a'.
Proof.
  intros Hc. revert st a.
  induction slots as [|[day time] rest IH]; intros st a Hsub Hrun;
    cbn [scan_slots] in Hrun.
  { injection Hrun as <- <-. rewrite Z.sub_diag.
    split; [done | split; [apply extends_refl | lia]]. }
  assert (Hrest : rest ⊆ TIME_SLOTS).
  { intros x Hx. apply Hsub. by right. }
  destruct (a >=? needed).
  { injection Hrun as <- <-. rewrite Z.sub_diag.
    split; [done | split; [apply extends_refl | lia]]. }
  destruct (lecturers st !! lecturer course) as [e|] eqn:He; [|done].
  destruct (Z.geb_spec (hours_used e) (hours_available e)) as [|Hhours];
    [by apply IH|].
  destruct (decide ((lecturer course, day, time) ∈ lecturer_usage st));
    [by apply IH|].
  destruct (decide ((level course, day, time) ∈ level_usage st));
    [by apply IH|].
  apply bind_Returns in Hrun as ([st1 a1] & Hrooms & Hrun).
  apply IH in Hrun as (Hsteps & Hext & Hle); [|done].
  destruct (try_rooms_spec _ _ _ e _ _ _ _ _ Hrooms He)
    as [[-> ->]|(room & Hroom & Hfree & Hfits & -> & ->)]; [done|].
  split; [|split].
  - eapply rtc_l; [|exact Hsteps].
    apply step_assign; [done|]. split; try done.
    + by apply elem_of_sorted_by_capacity.
    + apply Hsub. by left.
  - replace (a' - a) with (1 + (a' - (a + 1))) by lia.
    eapply extends_trans; [|exact Hext]. by apply extends_assigned.
  - lia.
Qed.

Lemma process_course_spec course st st' :
  course ∈ cs -> process_course st course = Returns st' ->
  rtc (step cs) st st'.
Proof.
  intros Hc Hrun. unfold process_course in Hrun.
  destruct (lecturers st !! lecturer course) as [e|] eqn:He.
  - apply bind_Returns in Hrun as ([st1 a1] & Hscan & Hrun).
    apply scan_slots_spec in Hscan as (Hsteps & Hext & Hle); [|done..].
    destruct (Z.ltb_spec a1 (calculate_sessions_needed (hours_per_week course)));
      injection Hrun as <-; [|done].
    eapply rtc_r; [exact Hsteps|].
    apply (step_shortfall cs course a1 st1); [done| |lia].
    destruct (lecturers st1 !! lecturer course) eqn:He1; [by eexists|].
    apply (ext_lecturers _ _ _ _ Hext) in He1. congruence.
  - injection Hrun as <-. apply rtc_once. by apply step_unknown.
Qed.

Lemma process_courses_spec l st st' :
  l ⊆ cs -> process_courses l st = Returns st' -> rtc (step cs) st st'.
Proof.
  revert st. induction l as [|course rest IH]; intros st Hsub Hrun;
    simpl in Hrun.
  - by injection Hrun as <-.
  - apply bind_Returns in Hrun as (st1 & Hcourse & Hrun).
    etrans.
    + apply (process_course_spec course); [|done]. apply Hsub. by left.
    + apply IH; [|done]. intros x Hx. apply Hsub. by right.
Qed.
End Run.

Lemma NoDup_snoc_fresh {A B : Type} (f : A -> B) (l : list A) (x : A)
    (used : B -> Prop) :
  (forall y, y ∈ l -> used (f y)) -> ~ used (f x) ->
  NoDup (f <$> l) -> NoDup (f <$> (l ++ [x])).
Proof.
  intros Hused Hfresh Hnd. rewrite fmap_app. apply NoDup_app.
  split; [done|]. split.
  - intros k Hk Hkx. apply list_elem_of_singleton in Hkx as ->.
    apply list_elem_of_fmap in Hk as (y & Hfy & Hy).
    apply Hfresh. rewrite Hfy. by apply Hused.
  - apply NoDup_singleton.
Qed.

Lemma consistent_initial data : consistent (initial_state data).
Proof.
  split; simpl; try (intros s Hs; by apply elem_of_nil in Hs);
    apply NoDup_nil_2.
Qed.

Lemma step_consistent cs st st' :
  step cs st st' -> consistent st -> consistent st'.
Proof.
  intros Hstep [Rm Lm Vm Rn Ln Vn Hfits Hknown].
  destruct Hstep as [course day time room e st _ Hca | course st _ _
                    | course a st _ _ _]; [|by split..].
  destruct Hca as [He Hhours Hlec Hlev Hroom Hcap _ _].
  split; simpl.
  - intros s [Hs| ->%list_elem_of_singleton]%elem_of_app.
    + apply elem_of_union_r. by apply Rm.
    + apply elem_of_union_l. by apply elem_of_singleton.
  - intros s [Hs| ->%list_elem_of_singleton]%elem_of_app.
    + apply elem_of_union_r. by apply Lm.
    + apply elem_of_union_l. by apply elem_of_singleton.
  - intros s [Hs| ->%list_elem_of_singleton]%elem_of_app.
    + apply elem_of_union_r. by apply Vm.
    + apply elem_of_union_l. by apply elem_of_singleton.
  - by apply (NoDup_snoc_fresh _ _ _ (fun k => k ∈ room_usage st)).
  - by apply (NoDup_snoc_fresh _ _ _ (fun k => k ∈ lecturer_usage st)).
  - by apply (NoDup_snoc_fresh _ _ _ (fun k => k ∈ level_usage st)).
  - intros s [Hs| ->%list_elem_of_singleton]%elem_of_app; [by apply Hfits|].
    done.
  - intros s Hs. rewrite lookup_insert. case_decide; [by eexists|].
    apply elem_of_app in Hs as [Hs| ->%list_elem_of_singleton];
      [by apply Hknown | done].
Qed.

Lemma steps_consistent cs st st' :
  rtc (step cs) st st' -> consistent st -> consistent st'.
Proof.
  induction 1 as [|st1 st2 st3 Hstep _ IH]; [done|].
  intros Hc. apply IH. by eapply step_consistent.
Qed.

Lemma sessions_of_snoc n sched s :
  sessions_of n (sched ++ [s])
  = sessions_of n sched + (if decide (s_lecturer s = n) then 1 else 0).
Proof.
  unfold sessions_of, len. rewrite filter_app, length_app.
  rewrite filter_cons, filter_nil. case_decide; simpl; lia.
Qed.

Lemma sessions_of_nonneg n sched : 0 <= sessions_of n sched.
Proof. unfold sessions_of, len. lia. Qed.

Lemma build_lecturers_snoc l lec :
  build_lecturers (l ++ [lec])
  = <[name lec := mkEntry (lec_hours_per_week lec) 0]> (build_lecturers l).
Proof. unfold build_lecturers. by rewrite foldl_app. Qed.

Lemma build_lecturers_lookup l n e :
  build_lecturers l !! n = Some e ->
  hours_used e = 0 /\
  exists lec, lec ∈ l /\ name lec = n /\ hours_available e = lec_hours_per_week lec.
Proof.
  induction l as [|lec l IH] using rev_ind.
  - unfold build_lecturers. simpl. by rewrite lookup_empty.
  - rewrite build_lecturers_snoc, lookup_insert. case_decide as Hn.
    + intros [= <-]. split; [done|]. exists lec.
      split; [apply elem_of_app; right; by apply list_elem_of_singleton|done].
    + intros (Hu & lec' & Hin & Hname & Ha)%IH. split; [done|].
      exists lec'. split; [apply elem_of_app; by left | done].
Qed.

Lemma build_lecturers_None l n :
  build_lecturers l !! n = None <-> forall lec, lec ∈ l -> name lec <> n.
Proof.
  induction l as [|lec l IH] using rev_ind.
  - unfold build_lecturers. simpl. rewrite lookup_empty.
    split; [|done]. intros _ lec Hin. by apply elem_of_nil in Hin.
  - rewrite build_lecturers_snoc, lookup_insert. case_decide as Hn.
    + split; [done|]. intros H. exfalso. apply (H lec); [|done].
      apply elem_of_app. right. by apply list_elem_of_singleton.
    + rewrite IH. split; intros H lec' Hin.
      * apply elem_of_app in Hin as [Hin| ->%list_elem_of_singleton];
          [by apply H | done].
      * apply H. apply elem_of_app. by left.
Qed.

Lemma ledger_ok_initial data :
  ledger_ok (build_lecturers (lecturers_data data)) (initial_state data).
Proof.
  intros n. simpl.
  destruct (build_lecturers (lecturers_data data) !! n) as [e|] eqn:He; [|done].
  apply build_lecturers_lookup in He as [Hu _]. rewrite Hu.
  split; [done|]. split; [done | by left].
Qed.

Lemma step_ledger_ok budget cs st st' :
  step cs st st' -> ledger_ok budget st -> ledger_ok budget st'.
Proof.
  intros Hstep Hok.
  destruct Hstep as [course day time room e st _ Hca | course st _ _
                    | course a st _ _ _]; [|done..].
  destruct Hca as [He Hhours _ _ _ _ _ _].
  intros n. specialize (Hok n). simpl. rewrite sessions_of_snoc. simpl.
  rewrite lookup_insert. case_decide as Hn.
  - subst n. rewrite He in Hok.
    destruct (budget !! lecturer course) as [e0|]; [|done]. simpl.
    destruct Hok as (Ha & Hu & _). split; [done|]. split; lia.
  - destruct (lecturers st !! n) as [e1|], (budget !! n) as [e0|]; try done.
    by rewrite Z.add_0_r.
Qed.

Lemma steps_ledger_ok budget cs st st' :
  rtc (step cs) st st' -> ledger_ok budget st -> ledger_ok budget st'.
Proof.
  induction 1 as [|st1 st2 st3 Hstep _ IH]; [done|].
  intros Hok. apply IH. by eapply step_ledger_ok.
Qed.

Lemma ledger_ok_None budget st n :
  ledger_ok budget st -> lecturers st !! n = None <-> budget !! n = None.
Proof.
  intros Hok. specialize (Hok n).
  destruct (lecturers st !! n), (budget !! n); done.
Qed.

Lemma step_records_ok budget cs st st' :
  step cs st st' -> ledger_ok budget st ->
  Forall (record_ok cs budget) (unscheduled st) ->
  Forall (record_ok cs budget) (unscheduled st').
Proof.
  intros Hstep Hok Hrec.
  destruct Hstep as [course day time room e st _ Hca | course st Hc Hnone
                    | course a st Hc Hsome Ha]; [done|..]; simpl;
    apply Forall_app; (split; [done|]); apply Forall_singleton;
    (split; [done|]).
  - left. split; [|done]. by apply (ledger_ok_None budget st).
  - right. split; [|by exists a]. simpl.
    destruct (budget !! lecturer course) eqn:Hb; [by eexists|].
    apply (ledger_ok_None budget st) in Hb; [|done].
    rewrite Hb in Hsome. by destruct Hsome.
Qed.

Lemma steps_records_ok budget cs st st' :
  rtc (step cs) st st' -> ledger_ok budget st ->
  Forall (record_ok cs budget) (unscheduled st) ->
  Forall (record_ok cs budget) (unscheduled st').
Proof.
  induction 1 as [|st1 st2 st3 Hstep _ IH]; [done|].
  intros Hok Hrec. apply IH.
  - by eapply step_ledger_ok.
  - by eapply step_records_ok.
Qed.

Lemma schedule_courses_Returns file r :
  schedule_courses file = Returns r ->
  let data := load_user_data file in
  (courses data = [] /\ r = empty_result) \/
  (courses data <> [] /\
   exists st, process_courses (courses data) (initial_state data) = Returns st /\
              r = full_result (courses data) st).
Proof.
  intros Hrun data. unfold schedule_courses in Hrun. fold data in Hrun.
  destruct (courses data) as [|c cs] eqn:Hcs.
  - left. by injection Hrun as <-.
  - right. split; [done|].
    apply bind_Returns in Hrun as (st & Hst & Hr). exists st.
    split; [done|]. by injection Hr as <-.
Qed.

(** The invariants hold in the state from which the result is built. *)
Lemma final_state_invariants file st :
  let data := load_user_data file in
  process_courses (courses data) (initial_state data) = Returns st ->
  consistent st /\ ledger_ok (lecturer_budget file) st /\
  Forall (record_ok (courses data) (lecturer_budget file)) (unscheduled st).
Proof.
  intros data Hrun.
  apply (process_courses_spec (courses data)) in Hrun; [|done].
  split; [|split].
  - eapply steps_consistent; [done|]. apply consistent_initial.
  - eapply steps_ledger_ok; [done|]. apply ledger_ok_initial.
  - eapply steps_records_ok; [done| |].
    + apply ledger_ok_initial.
    + simpl. apply Forall_nil_2.
Qed.

(** ** Termination without exception

    The only exception that a run can meet is the [OverflowError] of the
    capacity test; when every enrollment converts to a double,
    [schedule_courses] returns. *)






Example huge_enrollment_raises :
  schedule_courses (Some huge_enrollment) = Raises OverflowError.
Proof. vm_compute. reflexivity. Qed.

(** The capacity test is not reached for an unknown lecturer. *)
Example huge_enrollment_unknown_returns :
  exists r,
    schedule_courses (Some huge_enrollment_unknown) = Returns r /\
    r_schedule r = [] /\ length (r_unscheduled r) = 1%nat.
Proof.
  exists (result_of (schedule_courses (Some huge_enrollment_unknown))).
  repeat split; vm_compute; reflexivity.
Qed.

(** ** One course inside the run *)

Lemma process_courses_app pre post st st' :
  process_courses (pre ++ post) st = Returns st' ->
  exists st0, process_courses pre st = Returns st0 /\
              process_courses post st0 = Returns st'.
Proof.
  revert st. induction pre as [|c pre IH]; intros st Hrun; simpl in *.
  - by exists st.
  - apply bind_Returns in Hrun as (st1 & Hc & Hrun).
    apply IH in Hrun as (st0 & Hpre & Hpost). exists st0.
    by rewrite Hc.
Qed.

(** Both output lists only grow: nothing is rolled back. *)
Lemma step_grows cs st st' :
  step cs st st' ->
  schedule st `prefix_of` schedule st' /\
  unscheduled st `prefix_of` unscheduled st'.
Proof.
  intros [course day time room e st0 _ _ | course st0 _ _
         | course a st0 _ _ _]; simpl; split;
    done || apply prefix_app_r; done.
Qed.

Lemma steps_grow cs st st' :
  rtc (step cs) st st' ->
  schedule st `prefix_of` schedule st' /\
  unscheduled st `prefix_of` unscheduled st'.
Proof.
  induction 1 as [|st1 st2 st3 Hstep _ [IHs IHu]]; [done|].
  apply step_grows in Hstep as [Hs Hu]. split; by etrans.
Qed.

Lemma elem_of_prefix {A : Type} (l1 l2 : list A) (x : A) :
  l1 `prefix_of` l2 -> x ∈ l1 -> x ∈ l2.
Proof. intros [k ->] Hx. apply elem_of_app. by left. Qed.

(** The run split at one course: the state before it, the state after it,
    and the final state. *)
Lemma run_split file pre course post st :
  let data := load_user_data file in
  courses data = pre ++ course :: post ->
  process_courses (courses data) (initial_state data) = Returns st ->
  exists st0 st1,
    process_courses pre (initial_state data) = Returns st0 /\
    process_course st0 course = Returns st1 /\
    ledger_ok (lecturer_budget file) st0 /\
    schedule st1 `prefix_of` schedule st /\
    unscheduled st1 `prefix_of` unscheduled st.
Proof.
  intros data Hcs Hrun. rewrite Hcs in Hrun.
  apply process_courses_app in Hrun as (st0 & Hpre & Hrun).
  simpl in Hrun. apply bind_Returns in Hrun as (st1 & Hc & Hpost).
  exists st0, st1. split; [done|]. split; [done|]. split.
  - apply (process_courses_spec (courses data)) in Hpre.
    + eapply steps_ledger_ok; [done|]. apply ledger_ok_initial.
    + rewrite Hcs. intros x Hx. apply elem_of_app. by left.
  - apply (process_courses_spec post) in Hpost; [|done].
    by apply steps_grow in Hpost.
Qed.

(** ** Verified properties *)

(** A general bound on the ledger: a lecturer of the mapping has used two
    hours per session, and either nothing or less than two hours beyond
    the budget. *)
Lemma hours_used_bound file r w n e :
  schedule_courses file = Returns r ->
  r_lecturer_workload r = Some w ->
  lecturer_budget file !! n = Some e ->
  exists used, w !! n = Some used /\
    used = 2 * sessions_of n (r_schedule r) /\
    (used = 0 \/ used < hours_available e + 2).
Proof.
  intros Hrun Hw He.
  apply schedule_courses_Returns in Hrun as [[_ ->]|(_ & st & Hst & ->)];
    [done|].
  injection Hw as <-.
  apply final_state_invariants in Hst as (_ & Hok & _).
  specialize (Hok n). rewrite He in Hok. rewrite lookup_fmap.
  destruct (lecturers st !! n) as [e'|]; [|done]. simpl.
  destruct Hok as (Ha & Hu & Hb). exists (hours_used e').
  rewrite <- Ha. done.
Qed.

(** C1, as stated, fails: with a budget of 3 hours "Dr. A" ends with 4
    hours used, and with a budget of -2 hours "Dr. B" ends with 0 hours
    used, both above the budget. *)
Lemma C1_budget_exceeded :
  exists r w,
    schedule_courses (Some odd_budget) = Returns r /\
    r_lecturer_workload r = Some w /\
    lecturer_budget (Some odd_budget) !! "Dr. A" = Some (mkEntry 3 0) /\
    w !! "Dr. A" = Some 4 /\ ~ 4 <= 3 /\
    lecturer_budget (Some odd_budget) !! "Dr. B" = Some (mkEntry (-2) 0) /\
    w !! "Dr. B" = Some 0 /\ ~ 0 <= -2.
Proof.
  exists (result_of (schedule_courses (Some odd_budget))).
  exists (default ∅ (r_lecturer_workload
                       (result_of (schedule_courses (Some odd_budget))))).
  repeat split; try (vm_compute; reflexivity); lia.
Qed.

(** C1 (amended): for every input and every lecturer of the lecturer
    mapping whose [hours_available] is a non-negative even integer, after
    [schedule_courses] completes the lecturer's [hours_used], which is 2
    hours per scheduled session assigned to them, is at most
    [hours_available]. *)
Theorem C1_hours_within_even_budget file r w n e :
  schedule_courses file = Returns r ->
  r_lecturer_workload r = Some w ->
  lecturer_budget file !! n = Some e ->
  0 <= hours_available e ->
  Z.even (hours_available e) = true ->
  exists used, w !! n = Some used /\
    used = 2 * sessions_of n (r_schedule r) /\
    used <= hours_available e.
Proof.
  intros Hrun Hw He Hpos Heven.
  destruct (hours_used_bound file r w n e Hrun Hw He)
    as (used & Hused & Hsessions & Hbound).
  exists used. split; [done|]. split; [done|].
  apply Z.even_spec in Heven as [k Hk].
  destruct Hbound as [->|Hlt]; [done|].
  pose proof (sessions_of_nonneg n (r_schedule r)). lia.
Qed.

Lemma C1_hours_within_even_budget_witness :
  exists used,
    default ∅ (r_lecturer_workload
                 (result_of (schedule_courses (Some scenario_A))))
      !! "Dr. A" = Some used /\
    used = 2 * sessions_of "Dr. A"
                 (r_schedule (result_of (schedule_courses (Some scenario_A)))) /\
    used <= hours_available (mkEntry 10 0).
Proof.
  apply (C1_hours_within_even_budget (Some scenario_A)).
  - vm_compute. reflexivity.
  - vm_compute. reflexivity.
  - vm_compute. reflexivity.
  - simpl. lia.
  - reflexivity.
Defined.

(** C2: in the schedule returned by [schedule_courses], no two distinct
    entries share the same (room, day, time), the same (lecturer, day,
    time) or the same (level, day, time). *)
Theorem C2_no_double_booking file r i j a b :
  schedule_courses file = Returns r ->
  i <> j ->
  r_schedule r !! i = Some a ->
  r_schedule r !! j = Some b ->
  room_key a <> room_key b /\
  lecturer_key a <> lecturer_key b /\
  level_key a <> level_key b.
Proof.
  intros Hrun Hij Ha Hb.
  apply schedule_courses_Returns in Hrun as [[_ ->]|(_ & st & Hst & ->)];
    [done|].
  simpl in Ha, Hb.
  apply final_state_invariants in Hst as ([_ _ _ Rn Ln Vn _ _] & _ & _).
  repeat split; intros Heq; apply Hij.
  - apply (NoDup_lookup _ i j (room_key a) Rn);
      rewrite list_lookup_fmap; [by rewrite Ha | by rewrite Hb, Heq].
  - apply (NoDup_lookup _ i j (lecturer_key a) Ln);
      rewrite list_lookup_fmap; [by rewrite Ha | by rewrite Hb, Heq].
  - apply (NoDup_lookup _ i j (level_key a) Vn);
      rewrite list_lookup_fmap; [by rewrite Ha | by rewrite Hb, Heq].
Qed.

Lemma C2_no_double_booking_witness :
  room_key (mkSession "CSC101" "Programming I" 100 "Dr. A" "Tutorial Room A"
              "Monday" "8 AM - 10 AM" 50 40)
  <> room_key (mkSession "CSC101" "Programming I" 100 "Dr. A" "Tutorial Room A"
                 "Monday" "10 AM - 12 PM" 50 40) /\
  lecturer_key (mkSession "CSC101" "Programming I" 100 "Dr. A" "Tutorial Room A"
                  "Monday" "8 AM - 10 AM" 50 40)
  <> lecturer_key (mkSession "CSC101" "Programming I" 100 "Dr. A"
                     "Tutorial Room A" "Monday" "10 AM - 12 PM" 50 40) /\
  level_key (mkSession "CSC101" "Programming I" 100 "Dr. A" "Tutorial Room A"
               "Monday" "8 AM - 10 AM" 50 40)
  <> level_key (mkSession "CSC101" "Programming I" 100 "Dr. A" "Tutorial Room A"
                  "Monday" "10 AM - 12 PM" 50 40).
Proof.
  apply (C2_no_double_booking (Some scenario_A)
           (result_of (schedule_courses (Some scenario_A))) 0%nat 1%nat).
  - vm_compute. reflexivity.
  - lia.
  - vm_compute. reflexivity.
  - vm_compute. reflexivity.
Defined.

(** C3, as stated, fails when the course list is empty: the early return
    has neither [statistics] nor [lecturer_workload]. *)
Lemma C3_empty_result_lacks_fields :
  exists r,
    schedule_courses (Some (mkUserData [] [mkLecturer "Dr. A" 10])) = Returns r /\
    r_statistics r = None /\ r_lecturer_workload r = None.
Proof. exists empty_result. repeat split. Qed.

(** C3 (amended): for every input with a non-empty course list, the
    record returned by [schedule_courses] contains the four fields
    [schedule], [unscheduled], [statistics] and [lecturer_workload] (and
    no [message]); when the course list is empty it contains [schedule],
    [unscheduled] and [message] only.  The first two fields are present by
    the type of the record. *)
Theorem C3_result_fields file r :
  schedule_courses file = Returns r ->
  (courses (load_user_data file) <> [] ->
   is_Some (r_statistics r) /\ is_Some (r_lecturer_workload r) /\
   r_message r = None) /\
  (courses (load_user_data file) = [] ->
   r_statistics r = None /\ r_lecturer_workload r = None /\
   is_Some (r_message r)).
Proof.
  intros Hrun.
  apply schedule_courses_Returns in Hrun as [[Hcs ->]|(Hcs & st & _ & ->)];
    split; intros H; done.
Qed.

Lemma C3_result_fields_witness :
  (courses (load_user_data (Some scenario_A)) <> [] ->
   is_Some (r_statistics (result_of (schedule_courses (Some scenario_A)))) /\
   is_Some (r_lecturer_workload
              (result_of (schedule_courses (Some scenario_A)))) /\
   r_message (result_of (schedule_courses (Some scenario_A))) = None) /\
  (courses (load_user_data (Some scenario_A)) = [] ->
   r_statistics (result_of (schedule_courses (Some scenario_A))) = None /\
   r_lecturer_workload (result_of (schedule_courses (Some scenario_A))) = None /\
   is_Some (r_message (result_of (schedule_courses (Some scenario_A))))).
Proof.
  apply (C3_result_fields (Some scenario_A)). vm_compute. reflexivity.
Defined.

(** C4, as stated, fails for an unknown lecturer: the record holds the
    course fields and a reason, and no session count. *)
Lemma C4_unknown_record_lacks_counts :
  exists r u,
    schedule_courses (Some scenario_B) = Returns r /\
    r_unscheduled r = [u] /\
    u_sessions_assigned u = None /\ u_sessions_needed u = None.
Proof.
  exists (result_of (schedule_courses (Some scenario_B))).
  eexists. repeat split; vm_compute; reflexivity.
Qed.

(** C4 (amended): every record of [unscheduled] contains the fields of a
    course of the input and a reason string.  A record for a course whose
    session count was not met also contains [sessions_assigned] and
    [sessions_needed], and its reason is the shortfall message; a record
    for an unknown lecturer contains neither count, and its reason is the
    unknown-lecturer message. *)
Theorem C4_unscheduled_record_shape file r u :
  schedule_courses file = Returns r ->
  u ∈ r_unscheduled r ->
  let needed := calculate_sessions_needed (hours_per_week (u_course u)) in
  u_course u ∈ courses (load_user_data file) /\
  ((lecturer_budget file !! lecturer (u_course u) = None /\
    u_sessions_assigned u = None /\ u_sessions_needed u = None /\
    u_reason u
    = "Lecturer " +:+ lecturer (u_course u) +:+ " not found in system") \/
   (is_Some (lecturer_budget file !! lecturer (u_course u)) /\
    exists assigned, 0 <= assigned < needed /\
      u_sessions_assigned u = Some assigned /\
      u_sessions_needed u = Some needed /\
      u_reason u
      = "Could only schedule " +:+ pretty assigned +:+ "/" +:+
        pretty needed +:+ " sessions")).
Proof.
  intros Hrun Hu needed.
  apply schedule_courses_Returns in Hrun as [[_ ->]|(_ & st & Hst & ->)].
  { by apply elem_of_nil in Hu. }
  apply final_state_invariants in Hst as (_ & _ & Hrec).
  rewrite Forall_forall in Hrec. destruct (Hrec u Hu) as [Hc Hshape].
  split; [done|].
  destruct Hshape as [[Hnone Heq]|[Hsome (a & Ha & Heq)]].
  - left. split; [done|]. by rewrite Heq.
  - right. split; [done|]. exists a. split; [done|].
    subst needed. by rewrite Heq.
Qed.

Lemma C4_unscheduled_record_shape_witness :
  let u := mkUnscheduled (mkCourse "CSC301" "Operating Systems" 300 "Dr. C" 4 60)
             (Some 1) (Some 2) "Could only schedule 1/2 sessions" in
  let needed := calculate_sessions_needed (hours_per_week (u_course u)) in
  u_course u ∈ courses (load_user_data (Some short_budget)) /\
  ((lecturer_budget (Some short_budget) !! lecturer (u_course u) = None /\
    u_sessions_assigned u = None /\ u_sessions_needed u = None /\
    u_reason u
    = "Lecturer " +:+ lecturer (u_course u) +:+ " not found in system") \/
   (is_Some (lecturer_budget (Some short_budget) !! lecturer (u_course u)) /\
    exists assigned, 0 <= assigned < needed /\
      u_sessions_assigned u = Some assigned /\
      u_sessions_needed u = Some needed /\
      u_reason u
      = "Could only schedule " +:+ pretty assigned +:+ "/" +:+
        pretty needed +:+ " sessions")).
Proof.
  apply (C4_unscheduled_record_shape (Some short_budget)
           (result_of (schedule_courses (Some short_budget)))).
  - vm_compute. reflexivity.
  - vm_compute. apply list_elem_of_here.
Defined.

(** C5: every entry of the schedule returned by [schedule_courses] has a
    room capacity of at least 0.8 times the enrollment of the course. *)
Theorem C5_capacity_threshold file r s :
  schedule_courses file = Returns r ->
  s ∈ r_schedule r ->
  (0.8 * inject_Z (s_enrollment s) <= inject_Z (s_capacity s))%Q.
Proof.
  intros Hrun Hs.
  apply schedule_courses_Returns in Hrun as [[_ ->]|(_ & st & Hst & ->)].
  { by apply elem_of_nil in Hs. }
  apply final_state_invariants in Hst as ([_ _ _ _ _ _ Hfits _] & _ & _).
  specialize (Hfits s Hs). unfold Qle. simpl. lia.
Qed.

Lemma C5_capacity_threshold_witness :
  (0.8 * inject_Z 40 <= inject_Z 50)%Q.
Proof.
  apply (C5_capacity_threshold (Some scenario_A)
           (result_of (schedule_courses (Some scenario_A)))
           (mkSession "CSC101" "Programming I" 100 "Dr. A" "Tutorial Room A"
              "Monday" "8 AM - 10 AM" 50 40)).
  - vm_compute. reflexivity.
  - vm_compute. apply list_elem_of_here.
Defined.

(** C6: a course whose lecturer name is absent from the lecturer mapping
    is rejected without any slot search: processing it only appends the
    record with the reason "Lecturer <name> not found in system" to
    [unscheduled] and leaves the schedule, the ledger and the usage sets as
    they are; that record, which counts zero sessions assigned, is in the
    returned [unscheduled], and no entry of the returned [schedule] has
    the lecturer of the course. *)
Theorem C6_unknown_lecturer file r pre course post :
  schedule_courses file = Returns r ->
  courses (load_user_data file) = pre ++ course :: post ->
  lecturer_budget file !! lecturer course = None ->
  let record :=
    mkUnscheduled course None None
      ("Lecturer " +:+ lecturer course +:+ " not found in system") in
  (exists st0,
     process_courses pre (initial_state (load_user_data file)) = Returns st0 /\
     process_course st0 course = Returns (add_unscheduled st0 record)) /\
  record ∈ r_unscheduled r /\
  get_sessions_assigned record = 0 /\
  (forall s, s ∈ r_schedule r -> s_lecturer s <> lecturer course).
Proof.
  intros Hrun Hcs Hnone record.
  apply schedule_courses_Returns in Hrun as [[Hnil _]|(_ & st & Hst & ->)].
  { rewrite Hnil in Hcs. by destruct pre. }
  destruct (run_split file pre course post st Hcs Hst)
    as (st0 & st1 & Hpre & Hc & Hok0 & Hs & Hu).
  assert (Hstep : process_course st0 course
                  = Returns (add_unscheduled st0 record)).
  { unfold process_course.
    apply (ledger_ok_None _ st0) in Hnone; [|done]. by rewrite Hnone. }
  split; [by exists st0|]. split; [|split; [done|]].
  - simpl. apply (elem_of_prefix _ _ _ Hu).
    rewrite Hstep in Hc. injection Hc as <-. simpl.
    apply elem_of_app. right. by apply list_elem_of_singleton.
  - intros s Hin Heq. simpl in Hin.
    apply final_state_invariants in Hst as ([_ _ _ _ _ _ _ Hknown] & Hok & _).
    apply (ledger_ok_None _ st) in Hnone; [|done].
    destruct (Hknown s Hin) as [e He]. congruence.
Qed.

Lemma C6_unknown_lecturer_witness :
  let course := mkCourse "CSC404" "Compilers" 400 "Dr. Ghost" 4 40 in
  let record :=
    mkUnscheduled course None None
      ("Lecturer " +:+ lecturer course +:+ " not found in system") in
  (exists st0,
     process_courses [] (initial_state (load_user_data (Some scenario_B)))
     = Returns st0 /\
     process_course st0 course = Returns (add_unscheduled st0 record)) /\
  record ∈ r_unscheduled (result_of (schedule_courses (Some scenario_B))) /\
  get_sessions_assigned record = 0 /\
  (forall s, s ∈ r_schedule (result_of (schedule_courses (Some scenario_B))) ->
             s_lecturer s <> lecturer course).
Proof.
  apply (C6_unknown_lecturer (Some scenario_B)
           (result_of (schedule_courses (Some scenario_B))) [] _ []).
  - vm_compute. reflexivity.
  - reflexivity.
  - vm_compute. reflexivity.
Defined.

(** C7: for a course with a known lecturer, the sessions placed by the slot
    scan are appended to the schedule and stay in the returned [schedule];
    if their number is strictly less than [sessions_needed] (also when it
    is 0), a record with [sessions_assigned], [sessions_needed] and the
    reason "Could only schedule X/Y sessions" is in the returned
    [unscheduled], so that a partially scheduled course is in both lists. *)
Theorem C7_shortfall_recorded file r pre course post :
  schedule_courses file = Returns r ->
  courses (load_user_data file) = pre ++ course :: post ->
  is_Some (lecturer_budget file !! lecturer course) ->
  let needed := calculate_sessions_needed (hours_per_week course) in
  exists st0 st1 assigned new,
    process_courses pre (initial_state (load_user_data file)) = Returns st0 /\
    scan_slots course needed TIME_SLOTS st0 0 = Returns (st1, assigned) /\
    schedule st1 = schedule st0 ++ new /\
    len new = assigned /\
    Forall (fun s => s_course s = course_code course /\
                     s_lecturer s = lecturer course) new /\
    schedule st0 ++ new `prefix_of` r_schedule r /\
    (assigned < needed ->
     mkUnscheduled course (Some assigned) (Some needed)
       ("Could only schedule " +:+ pretty assigned +:+ "/" +:+
        pretty needed +:+ " sessions") ∈ r_unscheduled r).
Proof.
  intros Hrun Hcs Hsome needed.
  apply schedule_courses_Returns in Hrun as [[Hnil _]|(_ & st & Hst & ->)].
  { rewrite Hnil in Hcs. by destruct pre. }
  destruct (run_split file pre course post st Hcs Hst)
    as (st0 & st1 & Hpre & Hc & Hok0 & Hs & Hu).
  unfold process_course in Hc. fold needed in Hc.
  destruct (lecturers st0 !! lecturer course) as [e|] eqn:He.
  2:{ apply (ledger_ok_None (lecturer_budget file) st0) in He; [|done].
      rewrite He in Hsome. by destruct Hsome. }
  apply bind_Returns in Hc as ([st2 assigned] & Hscan & Hc).
  destruct (scan_slots_spec [course] course needed TIME_SLOTS st0 0 st2 assigned)
    as (_ & [(new & Hnew & Hlen & Hall) _ _] & _);
    [by apply list_elem_of_singleton | done | done |].
  rewrite Z.sub_0_r in Hlen.
  exists st0, st2, assigned, new. repeat (split; [done|]).
  rewrite <- Hnew. simpl.
  destruct (Z.ltb_spec assigned needed) as [Hlt|Hge]; injection Hc as <-.
  - split; [done|]. intros _. apply (elem_of_prefix _ _ _ Hu). simpl.
    apply elem_of_app. right. by apply list_elem_of_singleton.
  - split; [done | lia].
Qed.

Lemma C7_shortfall_recorded_witness :
  let course := mkCourse "CSC301" "Operating Systems" 300 "Dr. C" 4 60 in
  let r := result_of (schedule_courses (Some short_budget)) in
  let needed := calculate_sessions_needed (hours_per_week course) in
  exists st0 st1 assigned new,
    process_courses [] (initial_state (load_user_data (Some short_budget)))
    = Returns st0 /\
    scan_slots course needed TIME_SLOTS st0 0 = Returns (st1, assigned) /\
    schedule st1 = schedule st0 ++ new /\
    len new = assigned /\
    Forall (fun s => s_course s = course_code course /\
                     s_lecturer s = lecturer course) new /\
    schedule st0 ++ new `prefix_of` r_schedule r /\
    (assigned < needed ->
     mkUnscheduled course (Some assigned) (Some needed)
       ("Could only schedule " +:+ pretty assigned +:+ "/" +:+
        pretty needed +:+ " sessions") ∈ r_unscheduled r).
Proof.
  apply (C7_shortfall_recorded (Some short_budget)
           (result_of (schedule_courses (Some short_budget))) [] _ []).
  - vm_compute. reflexivity.
  - reflexivity.
  - vm_compute. by eexists.
Defined.

(** C8: if the course list is empty (also when the input file is
    missing), [schedule_courses] returns, without raising, a result with an
    empty [schedule], an empty [unscheduled] and the message "No courses
    to schedule. Please add courses first.". *)
Theorem C8_no_courses file :
  courses (load_user_data file) = [] ->
  exists r,
    schedule_courses file = Returns r /\
    r_schedule r = [] /\ r_unscheduled r = [] /\
    r_message r = Some "No courses to schedule. Please add courses first.".
Proof.
  intros Hnil. exists empty_result. unfold schedule_courses.
  rewrite Hnil. repeat split.
Qed.

Lemma C8_no_courses_witness :
  exists r,
    schedule_courses (Some (mkUserData [] [mkLecturer "Dr. A" 10])) = Returns r /\
    r_schedule r = [] /\ r_unscheduled r = [] /\
    r_message r = Some "No courses to schedule. Please add courses first.".
Proof.
  apply (C8_no_courses (Some (mkUserData [] [mkLecturer "Dr. A" 10]))).
  reflexivity.
Defined.

(** C9: for every non-negative integer [hours_per_week],
    [calculate_sessions_needed] is the floor division [(h + 1) // 2], which
    is the ceiling of [h / 2]; 3 gives 2, 4 gives 2 and 5 gives 3. *)
Theorem C9_sessions_needed_ceiling h :
  0 <= h ->
  calculate_sessions_needed h = (h + 1) `div` 2 /\
  calculate_sessions_needed h = Qceiling (inject_Z h / 2) /\
  calculate_sessions_needed 3 = 2 /\
  calculate_sessions_needed 4 = 2 /\
  calculate_sessions_needed 5 = 3.
Proof.
  intros _. split; [done|]. split; [|done].
  unfold calculate_sessions_needed, Qceiling, Qfloor. simpl.
  rewrite Z.mul_1_r. Z.div_mod_to_equations. lia.
Qed.

Lemma C9_sessions_needed_ceiling_witness :
  calculate_sessions_needed 7 = (7 + 1) `div` 2 /\
  calculate_sessions_needed 7 = Qceiling (inject_Z 7 / 2) /\
  calculate_sessions_needed 3 = 2 /\
  calculate_sessions_needed 4 = 2 /\
  calculate_sessions_needed 5 = 3.
Proof. apply (C9_sessions_needed_ceiling 7). lia. Defined.

(** C10: [fully_scheduled] is the number of courses whose code occurs in
    [schedule] minus the length of [unscheduled], and it is negative for
    some non-empty input: a single course with an unknown lecturer gives
    -1. *)
Theorem C10_fully_scheduled_negative :
  (forall file r stats,
     schedule_courses file = Returns r ->
     r_statistics r = Some stats ->
     fully_scheduled stats
     = len (filter (fun c => course_code c ∈ s_course <$> r_schedule r)
              (courses (load_user_data file)))
       - len (r_unscheduled r)) /\
  (exists r stats,
     courses (load_user_data (Some scenario_B)) <> [] /\
     length (courses (load_user_data (Some scenario_B))) = 1%nat /\
     schedule_courses (Some scenario_B) = Returns r /\
     r_statistics r = Some stats /\
     fully_scheduled stats = -1).
Proof.
  split.
  - intros file r stats Hrun Hstats.
    apply schedule_courses_Returns in Hrun as [[_ ->]|(_ & st & _ & ->)];
      [done|].
    by injection Hstats as <-.
  - exists (result_of (schedule_courses (Some scenario_B))).
    eexists. repeat split; [done | vm_compute; reflexivity..].
Qed.

Lemma C10_fully_scheduled_negative_witness :
  exists stats,
    r_statistics (result_of (schedule_courses (Some scenario_B))) = Some stats /\
    fully_scheduled stats
    = len (filter (fun c => course_code c ∈ s_course <$>
                      r_schedule (result_of (schedule_courses (Some scenario_B))))
             (courses (load_user_data (Some scenario_B))))
      - len (r_unscheduled (result_of (schedule_courses (Some scenario_B)))).
Proof.
  eexists. split; [vm_compute; reflexivity|].
  apply (proj1 C10_fully_scheduled_negative (Some scenario_B)).
  - vm_compute. reflexivity.
  - vm_compute. reflexivity.
Defined.

(** * Further properties *)

(** ** The sort of the classrooms *)

Lemma insert_by_capacity_Permutation r l : insert_by_capacity r l ≡ₚ r :: l.
Proof.
  induction l as [|r' l IH]; simpl; [done|].
  destruct (room_capacity r <=? room_capacity r'); [done|].
  rewrite IH. apply Permutation_swap.
Qed.

Lemma insert_by_capacity_sorted r l :
  StronglySorted capacity_le l ->
  StronglySorted capacity_le (insert_by_capacity r l).
Proof.
  induction 1 as [|r' l Hsorted IH Hall]; simpl.
  - repeat constructor.
  - destruct (Z.leb_spec (room_capacity r) (room_capacity r')) as [Hle|Hgt].
    + constructor; [by constructor|]. constructor; [done|].
      eapply Forall_impl; [exact Hall|]. unfold capacity_le. simpl. lia.
    + constructor; [done|]. apply Forall_forall. intros x Hx.
      apply elem_of_insert_by_capacity in Hx as [->|Hx].
      * unfold capacity_le. lia.
      * rewrite Forall_forall in Hall. by apply Hall.
Qed.

Lemma insert_by_capacity_filter c r l :
  filter (fun x => room_capacity x = c) (insert_by_capacity r l)
  = filter (fun x => room_capacity x = c) (r :: l).
Proof.
  induction l as [|r' l IH]; simpl; [done|].
  destruct (Z.leb_spec (room_capacity r) (room_capacity r')) as [Hle|Hgt];
    [done|].
  rewrite !filter_cons in *. rewrite IH.
  repeat case_decide; try done; lia.
Qed.

Lemma sorted_by_capacity_sorted l :
  StronglySorted capacity_le (sorted_by_capacity l).
Proof.
  induction l as [|r l IH]; simpl; [constructor|].
  by apply insert_by_capacity_sorted.
Qed.

(** X1: [sorted(CLASSROOMS, key=capacity)] is a stable ascending sort: the
    result is a rearrangement of the list, capacities never decrease along
    it, and rooms of one capacity keep their order. *)
Theorem sorted_by_capacity_stable_sort l :
  sorted_by_capacity l ≡ₚ l /\
  StronglySorted capacity_le (sorted_by_capacity l) /\
  (forall c, filter (fun r => room_capacity r = c) (sorted_by_capacity l)
             = filter (fun r => room_capacity r = c) l).
Proof.
  induction l as [|r l (Hperm & Hsorted & Hstable)]; simpl.
  - split; [done | split; [constructor | done]].
  - split; [|split].
    + by rewrite insert_by_capacity_Permutation, Hperm.
    + by apply insert_by_capacity_sorted.
    + intros c. rewrite insert_by_capacity_filter, !filter_cons, Hstable.
      done.
Qed.

(** ** First fit over the rooms *)

Lemma try_rooms_prefix course day time e rooms st a st' a' :
  try_rooms course day time rooms st a = Returns (st', a') ->
  lecturers st !! lecturer course = Some e ->
  (st' = st /\ a' = a /\
   Forall (room_unavailable course day time st) rooms) \/
  (exists pre room post,
     rooms = pre ++ room :: post /\
     Forall (room_unavailable course day time st) pre /\
     ~ room_unavailable course day time st room /\
     st' = assigned_state course day time room e st /\ a' = a + 1).
Proof.
  intros Hrun He. induction rooms as [|room rest IH]; simpl in Hrun.
  - left. injection Hrun as <- <-. by repeat split.
  - apply bind_Returns in Hrun as (small & Hsmall & Hrun).
    apply room_too_small_Returns in Hsmall as [_ ->].
    destruct (Z.ltb_spec (5 * room_capacity room) (4 * enrollment course))
      as [Hsmall|Hfits].
    { destruct (IH Hrun) as [(-> & -> & Hall)|(pre & r & post & -> & Hall & Hr)].
      - left. repeat split. constructor; [by left | done].
      - right. exists (room :: pre), r, post. split; [done|].
        split; [|done]. constructor; [by left | done]. }
    destruct (decide ((room_name room, day, time) ∈ room_usage st)) as [Hbusy|Hfree].
    { destruct (IH Hrun) as [(-> & -> & Hall)|(pre & r & post & -> & Hall & Hr)].
      - left. repeat split. constructor; [by right | done].
      - right. exists (room :: pre), r, post. split; [done|].
        split; [|done]. constructor; [by right | done]. }
    rewrite (assign_Returns _ _ _ _ e) in Hrun by done. simpl in Hrun.
    injection Hrun as <- <-.
    right. exists [], room, rest. repeat split; [done|].
    intros [?|?]; [lia | done].
Qed.

(** X2: One pass over the sorted catalog takes a smallest room that is large
    enough and free at the slot, and it places nothing only when every
    room of the catalog is too small or in use. *)
Theorem try_rooms_first_fit course day time e st a st' a' :
  try_rooms course day time (sorted_by_capacity CLASSROOMS) st a
  = Returns (st', a') ->
  lecturers st !! lecturer course = Some e ->
  (st' = st /\ a' = a /\
   forall room, room ∈ CLASSROOMS -> room_unavailable course day time st room) \/
  (exists room,
     room ∈ CLASSROOMS /\
     ~ room_unavailable course day time st room /\
     st' = assigned_state course day time room e st /\ a' = a + 1 /\
     forall room', room' ∈ CLASSROOMS ->
       room_capacity room' < room_capacity room ->
       room_unavailable course day time st room').
Proof.
  intros Hrun He.
  destruct (try_rooms_prefix _ _ _ e _ _ _ _ _ Hrun He)
    as [(-> & -> & Hall)|(pre & room & post & Hsplit & Hall & Hroom & -> & ->)].
  - left. repeat split. intros room Hroom.
    rewrite Forall_forall in Hall. apply Hall.
    by apply elem_of_sorted_by_capacity.
  - right. exists room.
    assert (Hin : forall x, x ∈ CLASSROOMS <-> x ∈ pre ++ room :: post).
    { intros x. by rewrite <- Hsplit, elem_of_sorted_by_capacity. }
    split; [apply Hin, elem_of_app; right; by left|].
    repeat (split; [done|]).
    intros room' Hcat Hlt.
    pose proof (sorted_by_capacity_sorted CLASSROOMS) as Hsorted.
    rewrite Hsplit in Hsorted.
    apply StronglySorted_app_1_r, StronglySorted_cons in Hsorted as [Hlater _].
    apply Hin, elem_of_app in Hcat as [Hpre|Hcat].
    + rewrite Forall_forall in Hall. by apply Hall.
    + apply elem_of_cons in Hcat as [->|Hpost]; [lia|].
      rewrite Forall_forall in Hlater.
      specialize (Hlater room' Hpost). unfold capacity_le in *. lia.
Qed.

Lemma try_rooms_first_fit_witness :
  let course := mkCourse "CSC101" "Programming I" 100 "Dr. A" 4 40 in
  let st := initial_state scenario_A in
  let st' := assigned_state course "Monday" "8 AM - 10 AM"
               (mkClassroom "Tutorial Room A" 50) (mkEntry 10 0) st in
  (st' = st /\ 1 = 0 /\
   forall room, room ∈ CLASSROOMS ->
     room_unavailable course "Monday" "8 AM - 10 AM" st room) \/
  (exists room,
     room ∈ CLASSROOMS /\
     ~ room_unavailable course "Monday" "8 AM - 10 AM" st room /\
     st' = assigned_state course "Monday" "8 AM - 10 AM" room (mkEntry 10 0) st /\
     1 = 0 + 1 /\
     forall room', room' ∈ CLASSROOMS ->
       room_capacity room' < room_capacity room ->
       room_unavailable course "Monday" "8 AM - 10 AM" st room').
Proof.
  apply try_rooms_first_fit.
  - vm_compute. reflexivity.
  - vm_compute. reflexivity.
Defined.

(** ** The sessions and the records of one course *)

Lemma scan_slots_picks course needed slots st a st' a' :
  scan_slots course needed slots st a = Returns (st', a') ->
  exists picks,
    schedule st' = schedule st ++ (session_of_pick course <$> picks) /\
    len picks = a' - a /\
    (fst <$> picks) `sublist_of` slots /\
    Forall (fun pick => pick.2 ∈ CLASSROOMS) picks /\
    a' <= Z.max a needed /\
    unscheduled st' = unscheduled st.
Proof.
  revert st a.
  induction slots as [|[day time] rest IH]; intros st a Hrun;
    cbn [scan_slots] in Hrun.
  { injection Hrun as <- <-. exists []. rewrite app_nil_r, Z.sub_diag.
    repeat split; [done | constructor | lia]. }
  destruct (Z.geb_spec a needed) as [Hge|Hlt].
  { injection Hrun as <- <-. exists []. rewrite app_nil_r, Z.sub_diag.
    repeat split; [apply sublist_nil_l | constructor | lia]. }
  assert (Hskip : forall st1, scan_slots course needed rest st1 a = Returns (st', a') ->
            st1 = st ->
            exists picks,
              schedule st' = schedule st ++ (session_of_pick course <$> picks) /\
              len picks = a' - a /\
              (fst <$> picks) `sublist_of` (day, time) :: rest /\
              Forall (fun pick => pick.2 ∈ CLASSROOMS) picks /\
              a' <= Z.max a needed /\
              unscheduled st' = unscheduled st).
  { intros st1 Hrest ->.
    destruct (IH _ _ Hrest) as (picks & ? & ? & ? & ?).
    exists picks. repeat (split; [done|]). split; [by apply sublist_cons | done]. }
  destruct (lecturers st !! lecturer course) as [e|] eqn:He; [|done].
  destruct (hours_used e >=? hours_available e); [by eapply Hskip|].
  destruct (decide ((lecturer course, day, time) ∈ lecturer_usage st));
    [by eapply Hskip|].
  destruct (decide ((level course, day, time) ∈ level_usage st));
    [by eapply Hskip|].
  apply bind_Returns in Hrun as ([st1 a1] & Hrooms & Hrun).
  destruct (try_rooms_spec _ _ _ e _ _ _ _ _ Hrooms He)
    as [[-> ->]|(room & Hroom & _ & _ & -> & ->)]; [by eapply Hskip|].
  destruct (IH _ _ Hrun) as (picks & Hs & Hlen & Hsub & Hrooms' & Hle & Hu).
  exists ((day, time, room) :: picks). repeat split.
  - rewrite Hs. simpl. by rewrite <- app_assoc.
  - unfold len in *. simpl. lia.
  - simpl. by apply sublist_skip.
  - constructor; [|done]. simpl. by apply elem_of_sorted_by_capacity.
  - lia.
  - done.
Qed.

Lemma process_course_effect course st st' :
  process_course st course = Returns st' ->
  exists picks, course_effect course st st' picks.
Proof.
  unfold process_course. intros Hrun.
  destruct (lecturers st !! lecturer course) as [e|] eqn:He.
  - apply bind_Returns in Hrun as ([st1 a1] & Hscan & Hrun).
    apply scan_slots_picks in Hscan as (picks & Hs & Hlen & Hsub & Hrooms & Hle & Hu).
    rewrite Z.sub_0_r in Hlen. subst a1. exists picks.
    assert (Hknown : bool_decide (is_Some (Some e)) = true)
      by (apply bool_decide_eq_true; by eexists).
    split; try done.
    + by destruct (len picks <? _); injection Hrun as <-.
    + rewrite He, Hknown. unfold course_records.
      destruct (len picks <? _); injection Hrun as <-; simpl;
        [by rewrite Hu | by rewrite Hu, app_nil_r].
  - injection Hrun as <-. exists [].
    assert (Hknown : bool_decide (is_Some (@None LecturerEntry)) = false).
    { apply bool_decide_eq_false. by intros [? ?]. }
    split; simpl.
    + by rewrite app_nil_r.
    + apply sublist_nil_l.
    + constructor.
    + unfold len. simpl. lia.
    + by rewrite He, Hknown.
Qed.

(** X4: For every course of the input, processing it appends to the schedule
    the sessions of its picks, at slots in catalog order and never more
    than [sessions_needed], and appends to [unscheduled] the records of
    [course_records]; a course whose lecturer is known is assigned either
    fewer sessions than needed, with a shortfall record, or exactly the
    number needed (none when that number is not positive), with no
    record.  Both additions stay in the returned lists. *)
Theorem course_sessions_and_records file r pre course post :
  schedule_courses file = Returns r ->
  courses (load_user_data file) = pre ++ course :: post ->
  let needed := calculate_sessions_needed (hours_per_week course) in
  exists st0 st1 picks,
    process_courses pre (initial_state (load_user_data file)) = Returns st0 /\
    process_course st0 course = Returns st1 /\
    course_effect course st0 st1 picks /\
    (is_Some (lecturers st0 !! lecturer course)
     <-> is_Some (lecturer_budget file !! lecturer course)) /\
    (len picks < needed \/ len picks = Z.max 0 needed) /\
    schedule st1 `prefix_of` r_schedule r /\
    unscheduled st1 `prefix_of` r_unscheduled r.
Proof.
  intros Hrun Hcs needed.
  apply schedule_courses_Returns in Hrun as [[Hnil _]|(_ & st & Hst & ->)].
  { rewrite Hnil in Hcs. by destruct pre. }
  destruct (run_split file pre course post st Hcs Hst)
    as (st0 & st1 & Hpre & Hc & Hok0 & Hs & Hu).
  destruct (process_course_effect _ _ _ Hc) as [picks Heff].
  exists st0, st1, picks. repeat (split; [done|]). split; [|split; [|done]].
  - rewrite <- !not_eq_None_Some. by rewrite (ledger_ok_None _ _ _ Hok0).
  - pose proof (ce_bound _ _ _ _ Heff) as Hb. fold needed in Hb.
    unfold len in *. lia.
Qed.

Lemma course_sessions_and_records_witness :
  let course := mkCourse "CSC301" "Operating Systems" 300 "Dr. C" 4 60 in
  let r := result_of (schedule_courses (Some short_budget)) in
  let needed := calculate_sessions_needed (hours_per_week course) in
  exists st0 st1 picks,
    process_courses [] (initial_state (load_user_data (Some short_budget)))
    = Returns st0 /\
    process_course st0 course = Returns st1 /\
    course_effect course st0 st1 picks /\
    (is_Some (lecturers st0 !! lecturer course)
     <-> is_Some (lecturer_budget (Some short_budget) !! lecturer course)) /\
    (len picks < needed \/ len picks = Z.max 0 needed) /\
    schedule st1 `prefix_of` r_schedule r /\
    unscheduled st1 `prefix_of` r_unscheduled r.
Proof.
  apply (course_sessions_and_records (Some short_budget)
           (result_of (schedule_courses (Some short_budget))) [] _ []).
  - vm_compute. reflexivity.
  - reflexivity.
Defined.

Lemma scan_slots_enough course needed slots st a :
  needed <= a -> scan_slots course needed slots st a = Returns (st, a).
Proof.
  intros Hle. destruct slots as [|[day time] rest]; cbn [scan_slots]; [done|].
  destruct (Z.geb_spec a needed); [done | lia].
Qed.

(** X5: A course of zero or negative [hours_per_week] whose lecturer is known
    leaves no trace: it needs no session, so the slot loop stops at once,
    and neither a session nor a record is appended. *)
Theorem course_without_hours_is_dropped file r pre course post :
  schedule_courses file = Returns r ->
  courses (load_user_data file) = pre ++ course :: post ->
  is_Some (lecturer_budget file !! lecturer course) ->
  hours_per_week course <= 0 ->
  exists st0,
    process_courses pre (initial_state (load_user_data file)) = Returns st0 /\
    process_course st0 course = Returns st0.
Proof.
  intros Hrun Hcs Hknown Hhours.
  apply schedule_courses_Returns in Hrun as [[Hnil _]|(_ & st & Hst & ->)].
  { rewrite Hnil in Hcs. by destruct pre. }
  destruct (run_split file pre course post st Hcs Hst)
    as (st0 & st1 & Hpre & _ & Hok0 & _ & _).
  exists st0. split; [done|]. unfold process_course.
  destruct (lecturers st0 !! lecturer course) as [e|] eqn:He.
  2:{ apply (ledger_ok_None (lecturer_budget file) st0) in He; [|done].
      rewrite He in Hknown. by destruct Hknown. }
  assert (Hneeded : calculate_sessions_needed (hours_per_week course) <= 0).
  { unfold calculate_sessions_needed. Z.div_mod_to_equations. lia. }
  rewrite scan_slots_enough by lia. simpl.
  destruct (Z.ltb_spec 0 (calculate_sessions_needed (hours_per_week course)));
    [lia | done].
Qed.

Lemma course_without_hours_is_dropped_witness :
  exists st0,
    process_courses [] (initial_state (load_user_data (Some zero_hours)))
    = Returns st0 /\
    process_course st0 (mkCourse "CSC000" "Seminar" 100 "Dr. A" 0 40)
    = Returns st0.
Proof.
  apply (course_without_hours_is_dropped (Some zero_hours)
           (result_of (schedule_courses (Some zero_hours))) [] _ []).
  - vm_compute. reflexivity.
  - reflexivity.
  - vm_compute. by eexists.
  - simpl. lia.
Defined.

(** ** The shape of the two output lists *)

Lemma course_records_courses known course assigned :
  (u_course <$> course_records known course assigned) `sublist_of` [course].
Proof.
  unfold course_records. destruct known; [case_match|]; simpl;
    (reflexivity || apply sublist_nil_l).
Qed.

Lemma process_courses_blocks l st st' :
  process_courses l st = Returns st' ->
  exists blocks us,
    Forall2 course_block l blocks /\
    schedule st'
    = schedule st ++
      concat (zip_with (fun c picks => session_of_pick c <$> picks) l blocks) /\
    unscheduled st' = unscheduled st ++ us /\
    (u_course <$> us) `sublist_of` l.
Proof.
  revert st. induction l as [|course rest IH]; intros st Hrun; simpl in Hrun.
  - injection Hrun as <-. exists [], []. rewrite !app_nil_r.
    repeat split; [constructor | done].
  - apply bind_Returns in Hrun as (st1 & Hc & Hrun).
    destruct (process_course_effect _ _ _ Hc) as [picks [Hs Hsl Hro Hb Hu]].
    destruct (IH _ Hrun) as (blocks & us & Hall & Hs' & Hu' & Hsub).
    exists (picks :: blocks), (course_records
      (bool_decide (is_Some (lecturers st !! lecturer course)))
      course (len picks) ++ us).
    repeat split.
    + by constructor.
    + simpl. by rewrite Hs', Hs, <- app_assoc.
    + by rewrite Hu', Hu, <- app_assoc.
    + rewrite fmap_app. change (course :: rest) with ([course] ++ rest).
      apply sublist_app; [|done]. apply course_records_courses.
Qed.

(** X6: The returned schedule is made of one block per course, in input
    order: the block of a course holds its sessions, at slots in the order
    of the catalog (hence at distinct slots), in rooms of the catalog, and
    it is no longer than the number of sessions the course needs. *)
Theorem schedule_is_blocks_in_course_order file r :
  schedule_courses file = Returns r ->
  exists blocks,
    Forall2 course_block (courses (load_user_data file)) blocks /\
    r_schedule r
    = concat (zip_with (fun c picks => session_of_pick c <$> picks)
                (courses (load_user_data file)) blocks).
Proof.
  intros Hrun.
  apply schedule_courses_Returns in Hrun as [[Hnil ->]|(_ & st & Hst & ->)].
  - exists []. rewrite Hnil. split; [constructor | done].
  - apply process_courses_blocks in Hst as (blocks & us & Hall & Hs & _).
    by exists blocks.
Qed.

Lemma schedule_is_blocks_in_course_order_witness :
  exists blocks,
    Forall2 course_block (courses (load_user_data (Some scenario_A))) blocks /\
    r_schedule (result_of (schedule_courses (Some scenario_A)))
    = concat (zip_with (fun c picks => session_of_pick c <$> picks)
                (courses (load_user_data (Some scenario_A))) blocks).
Proof.
  apply (schedule_is_blocks_in_course_order (Some scenario_A)).
  vm_compute. reflexivity.
Defined.

(** X7: The courses of the returned [unscheduled] records are a sub-list of
    the course list: the records are in input order, and each course of the
    input accounts for at most one record. *)
Theorem unscheduled_in_course_order file r :
  schedule_courses file = Returns r ->
  (u_course <$> r_unscheduled r) `sublist_of` courses (load_user_data file).
Proof.
  intros Hrun.
  apply schedule_courses_Returns in Hrun as [[Hnil ->]|(_ & st & Hst & ->)].
  - apply sublist_nil_l.
  - apply process_courses_blocks in Hst as (blocks & us & _ & _ & Hu & Hsub).
    simpl in *. by rewrite Hu.
Qed.

Lemma unscheduled_in_course_order_witness :
  (u_course <$> r_unscheduled (result_of (schedule_courses (Some short_budget))))
  `sublist_of` courses (load_user_data (Some short_budget)).
Proof.
  apply (unscheduled_in_course_order (Some short_budget)).
  vm_compute. reflexivity.
Defined.

(** ** Where the sessions come from *)

Lemma run_invariant file st (P : State -> Prop) :
  let data := load_user_data file in
  P (initial_state data) ->
  (forall st1 st2, step (courses data) st1 st2 -> P st1 -> P st2) ->
  process_courses (courses data) (initial_state data) = Returns st ->
  P st.
Proof.
  intros data Hinit Hstep Hrun.
  apply (process_courses_spec (courses data)) in Hrun; [|done].
  induction Hrun as [|st1 st2 st3 H12 _ IH]; [done|].
  apply IH. by eapply Hstep.
Qed.

Lemma session_provenance file r s :
  schedule_courses file = Returns r ->
  s ∈ r_schedule r ->
  (s_day s, s_time s) ∈ TIME_SLOTS /\
  mkClassroom (s_room s) (s_capacity s) ∈ CLASSROOMS /\
  (exists course,
     course ∈ courses (load_user_data file) /\
     s_course s = course_code course /\ s_title s = title course /\
     s_level s = level course /\ s_lecturer s = lecturer course /\
     s_enrollment s = enrollment course) /\
  is_Some (lecturer_budget file !! s_lecturer s).
Proof.
  intros Hrun Hs.
  apply schedule_courses_Returns in Hrun as [[_ ->]|(_ & st & Hst & ->)].
  { by apply elem_of_nil in Hs. }
  simpl in Hs. split; [|split; [|split]].
  4:{ apply final_state_invariants in Hst as ([_ _ _ _ _ _ _ Hknown] & Hok & _).
      rewrite <- not_eq_None_Some, <- (ledger_ok_None _ _ _ Hok).
      rewrite not_eq_None_Some. by apply Hknown. }
  all: revert s Hs;
    apply (run_invariant file st (fun st => forall s, s ∈ schedule st -> _));
    [by intros s Hs%elem_of_nil | | done];
    intros st1 st2 Hstep IH s Hs;
    destruct Hstep as [course day time room e st1 Hc Hca | | ]; [|by apply IH..];
    simpl in Hs;
    apply elem_of_app in Hs as [Hs| ->%list_elem_of_singleton]; [by apply IH|];
    destruct Hca as [_ _ _ _ _ _ Hroom Hslot]; simpl.
  - done.
  - by destruct room.
  - by exists course.
Qed.

(** X3: Every entry of the returned schedule is at a slot of [TIME_SLOTS], in
    a room of [CLASSROOMS] with the capacity of that room, copies its other
    fields from a course of the input, and has a lecturer of the lecturer
    mapping. *)
Theorem sessions_come_from_catalogs file r s :
  schedule_courses file = Returns r ->
  s ∈ r_schedule r ->
  (s_day s, s_time s) ∈ TIME_SLOTS /\
  mkClassroom (s_room s) (s_capacity s) ∈ CLASSROOMS /\
  (exists course,
     course ∈ courses (load_user_data file) /\
     s_course s = course_code course /\ s_title s = title course /\
     s_level s = level course /\ s_lecturer s = lecturer course /\
     s_enrollment s = enrollment course) /\
  is_Some (lecturer_budget file !! s_lecturer s).
Proof. apply session_provenance. Qed.

Lemma sessions_come_from_catalogs_witness :
  let s := mkSession "CSC101" "Programming I" 100 "Dr. A" "Tutorial Room A"
             "Monday" "8 AM - 10 AM" 50 40 in
  (s_day s, s_time s) ∈ TIME_SLOTS /\
  mkClassroom (s_room s) (s_capacity s) ∈ CLASSROOMS /\
  (exists course,
     course ∈ courses (load_user_data (Some scenario_A)) /\
     s_course s = course_code course /\ s_title s = title course /\
     s_level s = level course /\ s_lecturer s = lecturer course /\
     s_enrollment s = enrollment course) /\
  is_Some (lecturer_budget (Some scenario_A) !! s_lecturer s).
Proof.
  apply (sessions_come_from_catalogs (Some scenario_A)
           (result_of (schedule_courses (Some scenario_A)))).
  - vm_compute. reflexivity.
  - vm_compute. apply list_elem_of_here.
Defined.

(** ** The room of the timetable *)

Lemma NoDup_fmap_eq {A B : Type} (f : A -> B) (l : list A) (x y : A) :
  NoDup (f <$> l) -> x ∈ l -> y ∈ l -> f x = f y -> x = y.
Proof.
  induction l as [|z l IH]; simpl; [by intros _ ?%elem_of_nil|].
  intros [Hz Hnd]%NoDup_cons [->|Hx]%elem_of_cons [->|Hy]%elem_of_cons Heq.
  - done.
  - exfalso. apply Hz. rewrite Heq. by apply list_elem_of_fmap_2.
  - exfalso. apply Hz. rewrite <- Heq. by apply list_elem_of_fmap_2.
  - by apply IH.
Qed.

Lemma slots_of_group_bounded (sched group : list ScheduledSession)
    {K : Type} (key : ScheduledSession -> K) :
  NoDup (key <$> sched) ->
  (forall s, s ∈ group -> s ∈ sched) ->
  NoDup group ->
  (forall a b, a ∈ group -> b ∈ group -> slot_of a = slot_of b -> key a = key b) ->
  (forall s, s ∈ sched -> slot_of s ∈ TIME_SLOTS) ->
  len group <= 18.
Proof.
  intros Hnd Hsub Hgroup Hkey Hslots.
  assert (Hnd' : NoDup (slot_of <$> group)).
  { apply NoDup_fmap_2_strong; [|done]. intros a b Ha Hb Heq.
    apply (NoDup_fmap_eq key sched); auto. }
  assert (Hle : (length (slot_of <$> group) <= length TIME_SLOTS)%nat).
  { apply submseteq_length, NoDup_submseteq; [done|].
    intros slot (s & -> & Hs)%list_elem_of_fmap. auto. }
  rewrite length_fmap in Hle. unfold len. simpl in Hle. lia.
Qed.

(** X11: The catalogs bound the timetable: the returned schedule has at most
    126 entries (7 rooms at 18 slots), and at most 18 entries for one
    lecturer and for one level. *)
Theorem timetable_capacity file r :
  schedule_courses file = Returns r ->
  len (r_schedule r) <= 126 /\
  (forall n, sessions_of n (r_schedule r) <= 18) /\
  (forall lv, len (filter (fun s => s_level s = lv) (r_schedule r)) <= 18).
Proof.
  intros Hrun.
  assert (Hcat : forall s, s ∈ r_schedule r ->
            slot_of s ∈ TIME_SLOTS /\
            mkClassroom (s_room s) (s_capacity s) ∈ CLASSROOMS).
  { intros s Hs.
    destruct (session_provenance file r s Hrun Hs) as (? & ? & _).
    done. }
  apply schedule_courses_Returns in Hrun as [[_ ->]|(_ & st & Hst & ->)].
  { unfold sessions_of, len. simpl. repeat split; intros; lia. }
  simpl in *.
  apply final_state_invariants in Hst as ([_ _ _ Rn Ln Vn _ _] & _ & _).
  split; [|split].
  - assert (Hle : (length (room_key <$> schedule st)
                   <= length catalog_room_keys)%nat).
    { apply submseteq_length, NoDup_submseteq; [done|].
      intros key (s & -> & Hs)%list_elem_of_fmap.
      destruct (Hcat s Hs) as [Hslot Hroom].
      unfold catalog_room_keys. apply list_elem_of_bind.
      exists (mkClassroom (s_room s) (s_capacity s)). split; [|done].
      apply list_elem_of_bind. exists (slot_of s). split; [|done].
      by apply list_elem_of_singleton. }
    rewrite length_fmap in Hle. unfold len.
    change (length catalog_room_keys) with 126%nat in Hle. lia.
  - intros n. unfold sessions_of.
    apply (slots_of_group_bounded (schedule st) _ lecturer_key); [done|..].
    + by intros s [_ Hs]%list_elem_of_filter.
    + apply NoDup_filter. by apply (NoDup_fmap_1 lecturer_key).
    + intros a b [Ha _]%list_elem_of_filter [Hb _]%list_elem_of_filter [= Hd Ht].
      unfold lecturer_key. congruence.
    + intros s Hs. by apply Hcat.
  - intros lv.
    apply (slots_of_group_bounded (schedule st) _ level_key); [done|..].
    + by intros s [_ Hs]%list_elem_of_filter.
    + apply NoDup_filter. by apply (NoDup_fmap_1 level_key).
    + intros a b [Ha _]%list_elem_of_filter [Hb _]%list_elem_of_filter [= Hd Ht].
      unfold level_key. congruence.
    + intros s Hs. by apply Hcat.
Qed.

Lemma timetable_capacity_witness :
  len (r_schedule (result_of (schedule_courses (Some scenario_A)))) <= 126 /\
  (forall n, sessions_of n
               (r_schedule (result_of (schedule_courses (Some scenario_A))))
             <= 18) /\
  (forall lv, len (filter (fun s => s_level s = lv)
                     (r_schedule (result_of (schedule_courses (Some scenario_A)))))
              <= 18).
Proof.
  apply (timetable_capacity (Some scenario_A)). vm_compute. reflexivity.
Defined.

(** ** The statistics *)

Lemma split_by_sessions_assigned (l : list UnscheduledRecord) :
  Forall (fun u => 0 <= get_sessions_assigned u) l ->
  len (filter (fun u => 0 < get_sessions_assigned u) l)
  + len (filter (fun u => get_sessions_assigned u = 0) l) = len l.
Proof.
  unfold len. induction 1 as [|u l Hu _ IH]; [done|].
  rewrite !filter_cons. repeat case_decide; simpl length; lia.
Qed.

Lemma record_ok_sessions_assigned cs budget u :
  record_ok cs budget u -> 0 <= get_sessions_assigned u.
Proof.
  intros [_ [[_ ->]|[_ (a & Ha & ->)]]]; unfold get_sessions_assigned; simpl; lia.
Qed.

(** X8: The counts of the statistics fit together: [partially_scheduled] and
    [unscheduled] split the [unscheduled] list, which has at most one
    record per course; [fully_scheduled] is what remains of the number of
    courses whose code occurs in the schedule, itself at most
    [total_courses]; [total_sessions] is the length of the schedule. *)
Theorem statistics_are_consistent file r stats :
  schedule_courses file = Returns r ->
  r_statistics r = Some stats ->
  total_courses stats = len (courses (load_user_data file)) /\
  total_sessions stats = len (r_schedule r) /\
  0 <= partially_scheduled stats /\ 0 <= stat_unscheduled stats /\
  partially_scheduled stats + stat_unscheduled stats = len (r_unscheduled r) /\
  len (r_unscheduled r) <= total_courses stats /\
  fully_scheduled stats + partially_scheduled stats + stat_unscheduled stats
  = scheduled_courses (courses (load_user_data file)) (r_schedule r) /\
  scheduled_courses (courses (load_user_data file)) (r_schedule r)
  <= total_courses stats.
Proof.
  intros Hrun Hstats.
  apply schedule_courses_Returns in Hrun as [[_ ->]|(_ & st & Hst & ->)];
    [done|].
  injection Hstats as <-. simpl in *.
  destruct (process_courses_blocks _ _ _ Hst) as (_ & us & _ & _ & Hu & Hsub).
  apply sublist_length in Hsub. rewrite length_fmap in Hsub.
  simpl in Hu. subst us.
  apply final_state_invariants in Hst as (_ & _ & Hrec).
  assert (Hsplit := split_by_sessions_assigned (unscheduled st)).
  specialize (Hsplit (Forall_impl _ _ _ Hrec
                        (record_ok_sessions_assigned _ _))).
  assert (Hfilter := length_filter
            (fun c => course_code c ∈ s_course <$> schedule st)
            (courses (load_user_data file))).
  unfold scheduled_courses, len in *. repeat split; lia.
Qed.

Lemma statistics_are_consistent_witness :
  let r := result_of (schedule_courses (Some short_budget)) in
  let stats := mkStatistics 1 0 1 0 100 1 in
  total_courses stats = len (courses (load_user_data (Some short_budget))) /\
  total_sessions stats = len (r_schedule r) /\
  0 <= partially_scheduled stats /\ 0 <= stat_unscheduled stats /\
  partially_scheduled stats + stat_unscheduled stats = len (r_unscheduled r) /\
  len (r_unscheduled r) <= total_courses stats /\
  fully_scheduled stats + partially_scheduled stats + stat_unscheduled stats
  = scheduled_courses (courses (load_user_data (Some short_budget)))
      (r_schedule r) /\
  scheduled_courses (courses (load_user_data (Some short_budget))) (r_schedule r)
  <= total_courses stats.
Proof.
  apply (statistics_are_consistent (Some short_budget)).
  - vm_compute. reflexivity.
  - vm_compute. reflexivity.
Defined.

(** ** The lecturer ledger *)

(** X9: The returned workload has exactly the names of the lecturer list as
    keys, and the value of a name is two hours per entry of the schedule
    with that lecturer. *)
Theorem workload_keys_and_values file r w n :
  schedule_courses file = Returns r ->
  r_lecturer_workload r = Some w ->
  (w !! n = None <->
   forall lec, lec ∈ lecturers_data (load_user_data file) -> name lec <> n) /\
  (forall used, w !! n = Some used -> used = 2 * sessions_of n (r_schedule r)).
Proof.
  intros Hrun Hw.
  destruct (lecturer_budget file !! n) as [e|] eqn:He.
  - destruct (hours_used_bound file r w n e Hrun Hw He)
      as (used & Hused & Hsessions & _).
    split.
    + rewrite <- build_lecturers_None. fold (lecturer_budget file).
      rewrite He, Hused. done.
    + intros used' Hu. congruence.
  - apply schedule_courses_Returns in Hrun as [[_ ->]|(_ & st & Hst & ->)];
      [done|].
    injection Hw as <-.
    apply final_state_invariants in Hst as (_ & Hok & _).
    apply (ledger_ok_None _ _ _ Hok) in He as Hst.
    rewrite lookup_fmap, Hst. simpl. split; [|done].
    rewrite <- build_lecturers_None. done.
Qed.

Lemma workload_keys_and_values_witness :
  let w := default ∅ (r_lecturer_workload
                        (result_of (schedule_courses (Some scenario_A)))) in
  (w !! "Dr. A" = None <->
   forall lec, lec ∈ lecturers_data (load_user_data (Some scenario_A)) ->
               name lec <> "Dr. A") /\
  (forall used, w !! "Dr. A" = Some used ->
     used = 2 * sessions_of "Dr. A"
                  (r_schedule (result_of (schedule_courses (Some scenario_A))))).
Proof.
  apply (workload_keys_and_values (Some scenario_A)).
  - vm_compute. reflexivity.
  - vm_compute. reflexivity.
Defined.

Lemma build_lecturers_last pre lec post :
  (forall lec', lec' ∈ post -> name lec' <> name lec) ->
  build_lecturers (pre ++ lec :: post) !! name lec
  = Some (mkEntry (lec_hours_per_week lec) 0).
Proof.
  induction post as [|lec' post IH] using rev_ind; intros Hpost.
  - rewrite build_lecturers_snoc. apply lookup_insert_eq.
  - rewrite app_comm_cons, app_assoc, build_lecturers_snoc.
    rewrite lookup_insert_ne.
    + apply IH. intros x Hx. apply Hpost, elem_of_app. by left.
    + apply Hpost, elem_of_app. right. by apply list_elem_of_singleton.
Qed.

(** X10: The budget of a name is the [hours_per_week] of the last lecturer of
    that name in the lecturer list.  Against that budget, the hours used
    are two per session, and they are either 0 or less than two hours above
    it; a lecturer whose budget is not positive gets no session. *)
Theorem hours_against_last_entry file r w pre lec post :
  schedule_courses file = Returns r ->
  r_lecturer_workload r = Some w ->
  lecturers_data (load_user_data file) = pre ++ lec :: post ->
  (forall lec', lec' ∈ post -> name lec' <> name lec) ->
  exists used,
    w !! name lec = Some used /\
    used = 2 * sessions_of (name lec) (r_schedule r) /\
    (used = 0 \/ used < lec_hours_per_week lec + 2) /\
    (lec_hours_per_week lec <= 0 -> used = 0).
Proof.
  intros Hrun Hw Hdata Hlast.
  assert (He : lecturer_budget file !! name lec
               = Some (mkEntry (lec_hours_per_week lec) 0)).
  { unfold lecturer_budget. rewrite Hdata. by apply build_lecturers_last. }
  destruct (hours_used_bound file r w _ _ Hrun Hw He)
    as (used & Hused & Hsessions & Hbound).
  exists used. repeat (split; [done|]). simpl in Hbound.
  intros Hle. pose proof (sessions_of_nonneg (name lec) (r_schedule r)). lia.
Qed.

Lemma hours_against_last_entry_witness :
  exists used,
    default ∅ (r_lecturer_workload
                 (result_of (schedule_courses (Some same_name_twice))))
      !! "Dr. A" = Some used /\
    used = 2 * sessions_of "Dr. A"
                 (r_schedule (result_of (schedule_courses (Some same_name_twice)))) /\
    (used = 0 \/ used < 2 + 2) /\
    (2 <= 0 -> used = 0).
Proof.
  apply (hours_against_last_entry (Some same_name_twice)
           (result_of (schedule_courses (Some same_name_twice))) _
           [mkLecturer "Dr. A" 0] (mkLecturer "Dr. A" 2) []).
  - vm_compute. reflexivity.
  - vm_compute. reflexivity.
  - reflexivity.
  - intros lec' Hin. by apply elem_of_nil in Hin.
Defined.

(** ** Exceptions *)








(** ** A shortfall leaves no slot *)

Lemma grown_for_refl course st : grown_for course st st.
Proof. split; [done..|]. intros e He. by exists e. Qed.

Lemma grown_for_trans course st1 st2 st3 :
  grown_for course st1 st2 -> grown_for course st2 st3 ->
  grown_for course st1 st3.
Proof.
  intros [R1 L1 V1 H1] [R2 L2 V2 H2]. split; [by etrans..|].
  intros e He. destruct (H1 e He) as (e' & He' & Ha & Hu).
  destruct (H2 e' He') as (e'' & He'' & Ha' & Hu').
  exists e''. split; [done|]. split; [congruence | lia].
Qed.

Lemma grown_for_assigned course day time room e st :
  lecturers st !! lecturer course = Some e ->
  grown_for course st (assigned_state course day time room e st).
Proof.
  intros He. split; simpl; [apply union_subseteq_r..|].
  intros e1 He1. rewrite lookup_insert_eq. eexists. split; [done|].
  simpl. assert (e1 = e) as -> by congruence. split; [done | lia].
Qed.

Lemma slot_blocked_grown course st st' slot :
  grown_for course st st' ->
  slot_blocked course st slot -> slot_blocked course st' slot.
Proof.
  intros [HR HL HV HH] [(e & He & Hex)|[Hlec|[Hlev|Hrooms]]].
  - left. destruct (HH e He) as (e' & He' & Ha & Hu).
    exists e'. split; [done | lia].
  - right; left. by apply HL.
  - right; right; left. by apply HV.
  - right; right; right. intros room Hroom.
    destruct (Hrooms room Hroom) as [Hsmall|Hbusy]; [by left|].
    right. by apply HR.
Qed.

Lemma scan_slots_blocked course needed slots st a st' a' :
  scan_slots course needed slots st a = Returns (st', a') ->
  grown_for course st st' /\
  (a' < needed -> Forall (slot_blocked course st') slots).
Proof.
  revert st a.
  induction slots as [|[day time] rest IH]; intros st a Hrun;
    cbn [scan_slots] in Hrun.
  { injection Hrun as <- <-. split; [apply grown_for_refl | by constructor]. }
  destruct (Z.geb_spec a needed) as [Hge|Hlt].
  { injection Hrun as <- <-. split; [apply grown_for_refl | lia]. }
  assert (Hskip : slot_blocked course st (day, time) ->
            scan_slots course needed rest st a = Returns (st', a') ->
            grown_for course st st' /\
            (a' < needed -> Forall (slot_blocked course st') ((day, time) :: rest))).
  { intros Hblocked Hrest. destruct (IH _ _ Hrest) as [Hgrown Hall].
    split; [done|]. intros Ha. constructor; [|by apply Hall].
    by eapply slot_blocked_grown. }
  destruct (lecturers st !! lecturer course) as [e|] eqn:He; [|done].
  destruct (Z.geb_spec (hours_used e) (hours_available e)) as [Hex|Hleft].
  { apply Hskip; [|done]. left. by exists e. }
  destruct (decide ((lecturer course, day, time) ∈ lecturer_usage st)).
  { apply Hskip; [|done]. right; by left. }
  destruct (decide ((level course, day, time) ∈ level_usage st)).
  { apply Hskip; [|done]. right; right; by left. }
  apply bind_Returns in Hrun as ([st1 a1] & Hrooms & Hrun).
  destruct (try_rooms_prefix _ _ _ e _ _ _ _ _ Hrooms He)
    as [(-> & -> & Hnone)|(pre & room & post & _ & _ & _ & -> & ->)].
  { apply Hskip; [|done]. right; right; right. intros room Hroom.
    rewrite Forall_forall in Hnone.
    by apply Hnone, elem_of_sorted_by_capacity. }
  destruct (IH _ _ Hrun) as [Hgrown Hall]. split.
  - eapply grown_for_trans; [|exact Hgrown]. by apply grown_for_assigned.
  - intros Ha. constructor; [|by apply Hall].
    eapply slot_blocked_grown; [exact Hgrown|].
    right; left. simpl. apply elem_of_union_l. by apply elem_of_singleton.
Qed.

(** X14: A course whose lecturer is known is left short only when no slot is
    left for it: if the slot scan ends with fewer sessions than needed,
    then every slot of the catalog is blocked for the course in the state
    the scan ends in (the budget of the lecturer is used up, the lecturer
    or the level is busy at the slot, or every room of the catalog is too
    small or in use at the slot). *)
Theorem shortfall_leaves_no_slot file r pre course post :
  schedule_courses file = Returns r ->
  courses (load_user_data file) = pre ++ course :: post ->
  is_Some (lecturer_budget file !! lecturer course) ->
  let needed := calculate_sessions_needed (hours_per_week course) in
  exists st0 st1 assigned,
    process_courses pre (initial_state (load_user_data file)) = Returns st0 /\
    scan_slots course needed TIME_SLOTS st0 0 = Returns (st1, assigned) /\
    (assigned < needed ->
     forall slot, slot ∈ TIME_SLOTS -> slot_blocked course st1 slot).
Proof.
  intros Hrun Hcs Hsome needed.
  apply schedule_courses_Returns in Hrun as [[Hnil _]|(_ & st & Hst & ->)].
  { rewrite Hnil in Hcs. by destruct pre. }
  destruct (run_split file pre course post st Hcs Hst)
    as (st0 & st1 & Hpre & Hc & Hok0 & _ & _).
  unfold process_course in Hc. fold needed in Hc.
  destruct (lecturers st0 !! lecturer course) as [e|] eqn:He.
  2:{ apply (ledger_ok_None (lecturer_budget file) st0) in He; [|done].
      rewrite He in Hsome. by destruct Hsome. }
  apply bind_Returns in Hc as ([st2 assigned] & Hscan & _).
  exists st0, st2, assigned. repeat (split; [done|]).
  intros Hshort slot Hslot.
  apply scan_slots_blocked in Hscan as [_ Hall].
  specialize (Hall Hshort). rewrite Forall_forall in Hall. by apply Hall.
Qed.

Lemma shortfall_leaves_no_slot_witness :
  let course := mkCourse "CSC301" "Operating Systems" 300 "Dr. C" 4 60 in
  let needed := calculate_sessions_needed (hours_per_week course) in
  exists st0 st1 assigned,
    process_courses [] (initial_state (load_user_data (Some short_budget)))
    = Returns st0 /\
    scan_slots course needed TIME_SLOTS st0 0 = Returns (st1, assigned) /\
    (assigned < needed ->
     forall slot, slot ∈ TIME_SLOTS -> slot_blocked course st1 slot).
Proof.
  apply (shortfall_leaves_no_slot (Some short_budget)
           (result_of (schedule_courses (Some short_budget))) [] _ []).
  - vm_compute. reflexivity.
  - reflexivity.
  - vm_compute. by eexists.
Defined.

(** * The report *)

Example table_header_text :
  table_header
  = "Course       Title                          Day        Time            Room                 Lecturer            ".
Proof. vm_compute. reflexivity. Qed.

Lemma slot_ltb_asym a b : slot_ltb a b = true -> slot_ltb b a = false.
Proof.
  unfold slot_ltb, String.ltb.
  rewrite (String.compare_antisym b.1 a.1), (String.compare_antisym b.2 a.2).
  destruct (String.compare a.1 b.1); simpl; [|done..].
  by destruct (String.compare a.2 b.2).
Qed.

Lemma insert_by_slot_Permutation x l : insert_by_slot x l ≡ₚ x :: l.
Proof.
  induction l as [|y l IH]; simpl; [done|].
  destruct (slot_ltb (slot_of y) (slot_of x)); [|done].
  rewrite IH. apply Permutation_swap.
Qed.

Lemma sorted_by_slot_Permutation l : sorted_by_slot l ≡ₚ l.
Proof.
  induction l as [|x l IH]; simpl; [done|].
  by rewrite insert_by_slot_Permutation, IH.
Qed.

Lemma insert_by_slot_Sorted x l :
  Sorted not_before l -> Sorted not_before (insert_by_slot x l).
Proof.
  induction 1 as [|y l Hsorted IH Hhd]; simpl.
  - by repeat constructor.
  - destruct (slot_ltb (slot_of y) (slot_of x)) eqn:Hlt.
    + constructor; [done|].
      destruct Hhd as [|z l Hyz]; simpl.
      * constructor. by apply slot_ltb_asym.
      * destruct (slot_ltb (slot_of z) (slot_of x)); constructor;
          [done | by apply slot_ltb_asym].
    + constructor; [by constructor|]. by constructor.
Qed.

Lemma sorted_by_slot_Sorted l : Sorted not_before (sorted_by_slot l).
Proof.
  induction l as [|x l IH]; simpl; [constructor|].
  by apply insert_by_slot_Sorted.
Qed.

(** The sort of the rows is by the text of the day, then of the time:
    Friday comes before Monday. *)
Example rows_are_sorted_by_text :
  sorted_by_slot
    [ mkSession "CSC101" "Programming I" 100 "Dr. A" "Tutorial Room A"
        "Monday" "8 AM - 10 AM" 50 40;
      mkSession "CSC102" "Programming II" 100 "Dr. B" "Tutorial Room A"
        "Friday" "10 AM - 12 PM" 50 40 ]
  = [ mkSession "CSC102" "Programming II" 100 "Dr. B" "Tutorial Room A"
        "Friday" "10 AM - 12 PM" 50 40;
      mkSession "CSC101" "Programming I" 100 "Dr. A" "Tutorial Room A"
        "Monday" "8 AM - 10 AM" 50 40 ].
Proof. vm_compute. reflexivity. Qed.

Lemma rows_app out1 out2 : rows (out1 ++ out2) = rows out1 ++ rows out2.
Proof. apply omap_app. Qed.

Lemma rows_RowLine l : rows (RowLine <$> l) = l.
Proof. induction l as [|x l IH]; simpl; [done|]. by f_equal. Qed.

Lemma rows_lines {A : Type} (f : A -> string) (l : list A) :
  rows ((fun x => Line (f x)) <$> l) = [].
Proof. by induction l. Qed.

Lemma rows_level_section sched lv :
  rows (level_section sched lv)
  = sorted_by_slot (filter (fun s => s_level s = lv) sched).
Proof.
  unfold level_section.
  destruct (filter (fun s => s_level s = lv) sched) as [|x l]; [done|].
  rewrite rows_app, rows_RowLine. done.
Qed.

Lemma rows_level_sections sched lvs :
  rows (lvs ≫= level_section sched)
  = lvs ≫= (fun lv => sorted_by_slot (filter (fun s => s_level s = lv) sched)).
Proof.
  induction lvs as [|lv lvs IH]; [done|].
  rewrite !bind_cons, rows_app, rows_level_section, IH. done.
Qed.

Lemma rows_unscheduled_section items : rows (unscheduled_section items) = [].
Proof.
  destruct items as [|u items]; [done|].
  unfold unscheduled_section. rewrite rows_app.
  unfold unscheduled_line. by rewrite rows_lines.
Qed.

Lemma rows_workload_section items : rows (workload_section items) = [].
Proof.
  unfold workload_section. rewrite !rows_app, rows_lines. done.
Qed.

Lemma print_schedule_Returns file out :
  print_schedule file = Returns out ->
  exists r,
    schedule_courses file = Returns r /\
    ((r_schedule r = [] /\
      out = banner ++
            [Line (default "No schedule generated." (r_message r))]) \/
     (r_schedule r <> [] /\
      exists stats workload,
        r_statistics r = Some stats /\ r_lecturer_workload r = Some workload /\
        out = banner ++ (LEVELS ≫= level_section (r_schedule r)) ++
              unscheduled_section (r_unscheduled r) ++
              statistics_section stats ++
              workload_section (workload_items (load_user_data file) workload))).
Proof.
  unfold print_schedule. intros Hrun.
  apply bind_Returns in Hrun as (r & Hr & Hout). exists r. split; [done|].
  destruct (r_schedule r) as [|s sched] eqn:Hsched.
  - left. split; [done|]. by injection Hout as <-.
  - right. split; [done|].
    destruct (r_statistics r) as [stats|]; [|done].
    destruct (r_lecturer_workload r) as [workload|]; [|done].
    exists stats, workload. repeat split. by injection Hout as <-.
Qed.

Lemma rows_of_report file r out :
  schedule_courses file = Returns r ->
  print_schedule file = Returns out ->
  rows out
  = LEVELS ≫=
      (fun lv => sorted_by_slot (filter (fun s => s_level s = lv) (r_schedule r))).
Proof.
  intros Hr Hout.
  apply print_schedule_Returns in Hout as (r' & Hr' & Hout).
  assert (r' = r) as -> by congruence.
  destruct Hout as [[Hnil ->]|(_ & stats & workload & _ & _ & ->)].
  - rewrite Hnil. reflexivity.
  - rewrite !rows_app, rows_level_sections, rows_unscheduled_section,
      rows_workload_section. simpl. by rewrite app_nil_r.
Qed.

Lemma filter_either {A : Type} (P Q : A -> Prop)
    `{forall x, Decision (P x)} `{forall x, Decision (Q x)} (l : list A) :
  (forall x, P x -> Q x -> False) ->
  filter (fun x => P x \/ Q x) l ≡ₚ filter P l ++ filter Q l.
Proof.
  intros Hdisj. induction l as [|x l IH]; [done|].
  rewrite !filter_cons.
  destruct (decide (P x)) as [HP|HP], (decide (Q x)) as [HQ|HQ].
  - destruct (Hdisj x HP HQ).
  - rewrite decide_True by auto. simpl. by rewrite IH.
  - rewrite decide_True by auto. rewrite IH. apply Permutation_middle.
  - rewrite decide_False by tauto. done.
Qed.

Lemma group_by_key (sched : list ScheduledSession) (lvs : list Z) :
  NoDup lvs ->
  lvs ≫= (fun lv => sorted_by_slot (filter (fun s => s_level s = lv) sched))
  ≡ₚ filter (fun s => s_level s ∈ lvs) sched.
Proof.
  induction 1 as [|lv lvs Hlv _ IH].
  - simpl. induction sched as [|s sched IHs]; [done|].
    rewrite filter_cons. rewrite decide_False; [done|]. apply not_elem_of_nil.
  - rewrite bind_cons, IH, sorted_by_slot_Permutation.
    rewrite <- filter_either.
    + apply reflexive_eq, list_filter_iff. intros s.
      rewrite elem_of_cons. done.
    + intros s <- Hin. done.
Qed.

(** X15: The level tables of the report show exactly the entries of the
    schedule whose level is one of [LEVELS], each once; an entry of
    another level is in the schedule but in no table. *)
Theorem report_shows_listed_levels_only file r out :
  schedule_courses file = Returns r ->
  print_schedule file = Returns out ->
  rows out ≡ₚ filter (fun s => s_level s ∈ LEVELS) (r_schedule r).
Proof.
  intros Hr Hout. rewrite (rows_of_report file r out Hr Hout).
  apply group_by_key. unfold LEVELS.
  repeat (constructor; [rewrite ?elem_of_cons, elem_of_nil; lia|]).
  constructor.
Qed.

Lemma report_shows_listed_levels_only_witness :
  rows (report_of (print_schedule (Some level_500)))
  ≡ₚ filter (fun s => s_level s ∈ LEVELS)
       (r_schedule (result_of (schedule_courses (Some level_500)))).
Proof.
  apply (report_shows_listed_levels_only (Some level_500)).
  - vm_compute. reflexivity.
  - vm_compute. reflexivity.
Defined.

(** The entry of level 500 is scheduled and is in no table of the report. *)
Example level_500_is_not_reported :
  (s_level <$> r_schedule (result_of (schedule_courses (Some level_500))))
  = [500; 100] /\
  (s_level <$> rows (report_of (print_schedule (Some level_500)))) = [100].
Proof. split; vm_compute; reflexivity. Qed.

(** X16: The rows of the report come level by level in the order of [LEVELS];
    the rows of one level are the entries of that level in the schedule,
    rearranged so that no row is followed by a row of a smaller
    (day, time), compared as text. *)
Theorem report_rows_grouped_and_sorted file r out :
  schedule_courses file = Returns r ->
  print_schedule file = Returns out ->
  exists groups,
    rows out = concat groups /\
    Forall2 (fun lv group =>
               group ≡ₚ filter (fun s => s_level s = lv) (r_schedule r) /\
               Sorted not_before group)
      LEVELS groups.
Proof.
  intros Hr Hout. rewrite (rows_of_report file r out Hr Hout).
  generalize LEVELS as lvs. intros lvs.
  exists ((fun lv => sorted_by_slot (filter (fun s => s_level s = lv) (r_schedule r)))
            <$> lvs).
  split.
  - induction lvs as [|lv lvs IH]; [done|].
    rewrite bind_cons, fmap_cons. simpl. by rewrite IH.
  - induction lvs as [|lv lvs IH]; [constructor|].
    rewrite fmap_cons. constructor; [|done].
    split; [apply sorted_by_slot_Permutation | apply sorted_by_slot_Sorted].
Qed.

Lemma report_rows_grouped_and_sorted_witness :
  exists groups,
    rows (report_of (print_schedule (Some scenario_A))) = concat groups /\
    Forall2 (fun lv group =>
               group ≡ₚ filter (fun s => s_level s = lv)
                          (r_schedule (result_of (schedule_courses (Some scenario_A)))) /\
               Sorted not_before group)
      LEVELS groups.
Proof.
  apply (report_rows_grouped_and_sorted (Some scenario_A)).
  - vm_compute. reflexivity.
  - vm_compute. reflexivity.
Defined.

(** X17: When no session was scheduled the report stops after the banner and
    one line, the message of the empty result or "No schedule generated.":
    the [unscheduled] records, the statistics and the workload are not
    printed, also when the course list is not empty. *)
Theorem report_without_sessions file r :
  schedule_courses file = Returns r ->
  r_schedule r = [] ->
  print_schedule file
  = Returns (banner ++
             [Line (match courses (load_user_data file) with
                    | [] => "No courses to schedule. Please add courses first."
                    | _ :: _ => "No schedule generated."
                    end)]).
Proof.
  intros Hr Hnil. unfold print_schedule. rewrite Hr. simpl. rewrite Hnil.
  apply schedule_courses_Returns in Hr as [[Hcs ->]|(Hcs & st & _ & ->)].
  - by rewrite Hcs.
  - simpl. by destruct (courses (load_user_data file)).
Qed.

Lemma report_without_sessions_witness :
  print_schedule (Some nothing_scheduled)
  = Returns (banner ++
             [Line (match courses (load_user_data (Some nothing_scheduled)) with
                    | [] => "No courses to schedule. Please add courses first."
                    | _ :: _ => "No schedule generated."
                    end)]).
Proof.
  apply (report_without_sessions (Some nothing_scheduled)
           (result_of (schedule_courses (Some nothing_scheduled)))).
  - vm_compute. reflexivity.
  - vm_compute. reflexivity.
Defined.


